(** * dosocs2 utilities: verification codes, directory fingerprints,
      identifier strings and temporary archive extraction.

    A shallow embedding of [dosocs2/util.py].  Python [str] and [bytes] values
    are both rendered as [string] (a sequence of characters whose codes lie in
    0..255); [str.encode('utf-8')] is written out for that range.  Library
    calls whose result depends on the machine (the directory walk, the file
    contents, the archive readers, [tempfile.mkdtemp]) are fields of an
    explicit platform record, so every theorem quantifies over what the
    platform may answer.  The container checks and [shutil.rmtree], which can
    raise as well as answer, are fields of a second record,
    [Fallible.Library]. *)

From Stdlib Require Import ZArith List String Ascii Bool Lia Permutation.
From Stdlib Require Import Sorting.Sorted.
Import ListNotations.

Local Open Scope string_scope.
Local Open Scope list_scope.

(** ** Python string helpers *)

Module pystr.

(** [s[a:b]] for non-negative bounds: Python clamps a slice to the string;
    [substring] does the same. *)
Definition slice (a b : nat) (s : string) : string := substring a (b - a) s.

(** [''.join(l)] *)
Definition join_empty (l : list string) : string := String.concat "" l.

(** [s.split(sep)] for a one-character separator: always at least one
    field, empty fields kept. *)
Fixpoint split (sep : ascii) (s : string) : list string :=
  match s with
  | EmptyString => [EmptyString]
  | String c s' =>
      if Ascii.eqb c sep then EmptyString :: split sep s'
      else match split sep s' with
           | [] => [String c EmptyString]
           | f :: fs => String c f :: fs
           end
  end.

Definition startswith (p s : string) : bool := String.prefix p s.

Fixpoint endswith_char (c : ascii) (s : string) : bool :=
  match s with
  | EmptyString => false
  | String a EmptyString => Ascii.eqb a c
  | String _ s' => endswith_char c s'
  end.

(** [s.encode('utf-8')] for code points below 256: one byte below 128, two
    bytes otherwise. *)
Fixpoint encode_utf8 (s : string) : string :=
  match s with
  | EmptyString => EmptyString
  | String c s' =>
      let n := N_of_ascii c in
      if (n <? 128)%N then String c (encode_utf8 s')
      else String (ascii_of_N (192 + n / 64))
             (String (ascii_of_N (128 + n mod 64)) (encode_utf8 s'))
  end.

End pystr.

(** ** hashlib: SHA-1 and SHA-256 on byte strings (FIPS 180-4) *)

Module hashlib.
Local Open Scope Z_scope.

Definition add32 (x y : Z) : Z := (x + y) mod 2 ^ 32.
Definition rotl32 (n x : Z) : Z :=
  Z.lor (Z.shiftl x n mod 2 ^ 32) (Z.shiftr x (32 - n)).
Definition rotr32 (n x : Z) : Z := rotl32 (32 - n) x.
Definition not32 (x : Z) : Z := Z.lxor x 0xFFFFFFFF.

Definition bytes_of (s : string) : list Z :=
  map (fun c => Z.of_N (N_of_ascii c)) (list_ascii_of_string s).

(** [n] bytes of [v], most significant first. *)
Definition be_bytes (n : nat) (v : Z) : list Z :=
  map (fun i => Z.shiftr v (8 * Z.of_nat i) mod 256) (rev (seq 0 n)).

(** Padding: a one bit, zero bits up to 56 modulo 64 bytes, then the bit
    length on eight bytes. *)
Definition pad (msg : list Z) : list Z :=
  let l := Z.of_nat (List.length msg) in
  msg ++ [0x80] ++ repeat 0 (Z.to_nat ((55 - l) mod 64)) ++ be_bytes 8 (8 * l).

Fixpoint words (bs : list Z) : list Z :=
  match bs with
  | b0 :: b1 :: b2 :: b3 :: rest =>
      (Z.shiftl b0 24 + Z.shiftl b1 16 + Z.shiftl b2 8 + b3) :: words rest
  | _ => []
  end.

Fixpoint blocks (n : nat) (ws : list Z) : list (list Z) :=
  match n with
  | O => []
  | S n' => firstn 16 ws :: blocks n' (skipn 16 ws)
  end.

Definition message_blocks (s : string) : list (list Z) :=
  let ws := words (pad (bytes_of s)) in
  blocks (List.length ws / 16) ws.

Definition hex_digit (d : Z) : ascii :=
  if d <? 10 then ascii_of_N (Z.to_N (48 + d)) else ascii_of_N (Z.to_N (87 + d)).

Definition hex_word (w : Z) : string :=
  string_of_list_ascii
    (map (fun i => hex_digit (Z.shiftr w (4 * Z.of_nat i) mod 16)) (rev (seq 0 8))).

Definition hexdigest (h : list Z) : string := String.concat "" (map hex_word h).

(** The schedule is grown with its newest word first; [nth k] then reads
    the word [k + 1] places back. *)
Fixpoint extend (step : list Z -> Z) (n : nat) (racc : list Z) : list Z :=
  match n with
  | O => racc
  | S n' => extend step n' (step racc :: racc)
  end.

Module SHA1.

Definition H0 : list Z :=
  [0x67452301; 0xEFCDAB89; 0x98BADCFE; 0x10325476; 0xC3D2E1F0].

Definition schedule (blk : list Z) : list Z :=
  rev (extend (fun r =>
                 rotl32 1 (Z.lxor (Z.lxor (Z.lxor (nth 2 r 0) (nth 7 r 0))
                                     (nth 13 r 0)) (nth 15 r 0)))
         64 (rev blk)).

Definition f (t : nat) (b c d : Z) : Z :=
  if (t <? 20)%nat then Z.lor (Z.land b c) (Z.land (not32 b) d)
  else if (t <? 40)%nat then Z.lxor (Z.lxor b c) d
  else if (t <? 60)%nat then
    Z.lor (Z.lor (Z.land b c) (Z.land b d)) (Z.land c d)
  else Z.lxor (Z.lxor b c) d.

Definition K (t : nat) : Z :=
  if (t <? 20)%nat then 0x5A827999
  else if (t <? 40)%nat then 0x6ED9EBA1
  else if (t <? 60)%nat then 0x8F1BBCDC
  else 0xCA62C1D6.

Definition round (st : Z * Z * Z * Z * Z) (tw : nat * Z) :=
  let '(a, b, c, d, e) := st in
  let '(t, w) := tw in
  let temp := add32 (add32 (add32 (add32 (rotl32 5 a) (f t b c d)) e) (K t)) w in
  (temp, a, rotl32 30 b, c, d).

Definition compress (h : list Z) (blk : list Z) : list Z :=
  match h with
  | [h0; h1; h2; h3; h4] =>
      let '(a, b, c, d, e) :=
        fold_left round (combine (seq 0 80) (schedule blk)) (h0, h1, h2, h3, h4) in
      [add32 h0 a; add32 h1 b; add32 h2 c; add32 h3 d; add32 h4 e]
  | _ => h
  end.

Definition digest (s : string) : list Z :=
  fold_left compress (message_blocks s) H0.

End SHA1.

Module SHA256.

(** The constants of FIPS 180-4 are the first 32 bits of the fractional
    parts of the square roots ([H0], first 8 primes) and of the cube roots
    ([K], first 64 primes). *)
Definition is_prime (n : nat) : bool :=
  forallb (fun d => negb (Nat.eqb (n mod d) 0)) (seq 2 (n - 2)).

Definition primes (k : nat) : list Z :=
  map Z.of_nat (firstn k (filter is_prime (seq 2 400))).

Fixpoint cube_root (n : Z) (bits : nat) (r : Z) : Z :=
  match bits with
  | O => r
  | S b =>
      let c := r + 2 ^ Z.of_nat b in
      cube_root n b (if c * c * c <=? n then c else r)
  end.

Definition H0 : list Z :=
  Eval vm_compute in map (fun p => Z.sqrt (p * 2 ^ 64) mod 2 ^ 32) (primes 8).

Definition K : list Z :=
  Eval vm_compute in map (fun p => cube_root (p * 2 ^ 96) 36 0 mod 2 ^ 32) (primes 64).

Definition xor3 (x y z : Z) : Z := Z.lxor (Z.lxor x y) z.
Definition ssig0 (x : Z) := xor3 (rotr32 7 x) (rotr32 18 x) (Z.shiftr x 3).
Definition ssig1 (x : Z) := xor3 (rotr32 17 x) (rotr32 19 x) (Z.shiftr x 10).
Definition bsig0 (x : Z) := xor3 (rotr32 2 x) (rotr32 13 x) (rotr32 22 x).
Definition bsig1 (x : Z) := xor3 (rotr32 6 x) (rotr32 11 x) (rotr32 25 x).
Definition ch (x y z : Z) := Z.lxor (Z.land x y) (Z.land (not32 x) z).
Definition maj (x y z : Z) := xor3 (Z.land x y) (Z.land x z) (Z.land y z).

Definition schedule (blk : list Z) : list Z :=
  rev (extend (fun r =>
                 add32 (add32 (add32 (ssig1 (nth 1 r 0)) (nth 6 r 0))
                          (ssig0 (nth 14 r 0))) (nth 15 r 0))
         48 (rev blk)).

Definition round (st : list Z) (kw : Z * Z) : list Z :=
  match st with
  | [a; b; c; d; e; f; g; h] =>
      let t1 := add32 (add32 (add32 (add32 h (bsig1 e)) (ch e f g)) (fst kw)) (snd kw) in
      let t2 := add32 (bsig0 a) (maj a b c) in
      [add32 t1 t2; a; b; c; add32 d t1; e; f; g]
  | _ => st
  end.

Definition compress (h : list Z) (blk : list Z) : list Z :=
  map (fun p => add32 (fst p) (snd p))
      (combine h (fold_left round (combine K (schedule blk)) h)).

Definition digest (s : string) : list Z :=
  fold_left compress (message_blocks s) H0.

End SHA256.

(** [hashlib.sha1(s).hexdigest()] *)
Definition sha1_hexdigest (s : string) : string := hexdigest (SHA1.digest s).

(** [hashlib.sha256(s).hexdigest()] *)
Definition sha256_hexdigest (s : string) : string := hexdigest (SHA256.digest s).

End hashlib.


(** ** Exceptions and results *)

Inductive exn : Type :=
| TypeError (msg : string)
| ValueError (msg : string)
| Exception (msg : string)
| UnboundLocalError (var : string)
| FileNotFoundError (path : string)
| OtherError (cls msg : string).

Inductive result (A : Type) : Type :=
| Ok (a : A)
| Raise (e : exn).

Arguments Ok {A} a.
Arguments Raise {A} e.

Definition rbind {A B} (r : result A) (k : A -> result B) : result B :=
  match r with
  | Ok a => k a
  | Raise e => Raise e
  end.

Fixpoint rmapM {A B} (f : A -> result B) (l : list A) : result (list B) :=
  match l with
  | [] => Ok []
  | a :: l' => rbind (f a) (fun b => rbind (rmapM f l') (fun bs => Ok (b :: bs)))
  end.

Declare Scope result_scope.
Delimit Scope result_scope with result.
Notation "x <- r ;; k" := (rbind r (fun x => k))
  (at level 61, r at next level, right associativity) : result_scope.

(** ** [sorted], sets and dicts *)

(** [sorted(l)] on strings.  Python orders [str] by code point and [sorted]
    returns the ascending rearrangement; insertion into an ascending list
    computes it. *)
Fixpoint insert_sorted (x : string) (l : list string) : list string :=
  match l with
  | [] => [x]
  | y :: l' => if String.leb x y then x :: l else y :: insert_sorted x l'
  end.

Definition sorted (l : list string) : list string :=
  fold_right insert_sorted [] l.

(** A Python [set] of strings, used through [in] only. *)
Definition pyset := list string.

Definition set_mem (h : string) (s : pyset) : bool :=
  existsb (String.eqb h) s.

(** A Python [dict] from strings to strings: keys in insertion order, a
    second assignment to a key replaces its value in place. *)
Definition dict := list (string * string).

Fixpoint dict_set (k v : string) (d : dict) : dict :=
  match d with
  | [] => [(k, v)]
  | (k', v') :: d' =>
      if String.eqb k k' then (k', v) :: d' else (k', v') :: dict_set k v d'
  end.

Fixpoint dict_get (d : dict) (k : string) : option string :=
  match d with
  | [] => None
  | (k', v') :: d' => if String.eqb k k' then Some v' else dict_get d' k
  end.

Definition dict_values (d : dict) : list string := map snd d.
Definition dict_keys (d : dict) : list string := map fst d.

Definition dict_of_items (items : list (string * string)) : dict :=
  fold_left (fun d kv => dict_set (fst kv) (snd kv) d) items [].

(** [x not in s] where [x] comes from [dict.get] and may be [None]: [None]
    is never an element of a set of strings. *)
Definition not_in_set (x : option string) (s : pyset) : bool :=
  match x with
  | Some h => negb (set_mem h s)
  | None => true
  end.

(** ** os.path (posixpath) *)

Module posixpath.

Definition curdir : string := ".".
Definition pardir : string := "..".

Definition isabs (p : string) : bool := pystr.startswith "/" p.

(** [join(a, b)] *)
Definition join (a b : string) : string :=
  if pystr.startswith "/" b then b
  else if String.eqb a "" || pystr.endswith_char "/" a then (a ++ b)%string
  else (a ++ "/" ++ b)%string.

(** [join(a, *p)] *)
Definition join_all (a : string) (p : list string) : string :=
  fold_left join p a.

(** ['/'.join(comps)] *)
Definition join_sep (comps : list string) : string := String.concat "/" comps.

(** The loop of [normpath]: [new_comps] is kept with its last element
    first. *)
Fixpoint normpath_comps (initial_slashes : nat) (comps : list string)
         (new_comps : list string) : list string :=
  match comps with
  | [] => rev new_comps
  | comp :: rest =>
      if String.eqb comp "" || String.eqb comp "." then
        normpath_comps initial_slashes rest new_comps
      else if negb (String.eqb comp "..")
              || (Nat.eqb initial_slashes 0 && match new_comps with [] => true | _ => false end)
              || match new_comps with last :: _ => String.eqb last ".." | [] => false end
      then normpath_comps initial_slashes rest (comp :: new_comps)
      else match new_comps with
           | _ :: popped => normpath_comps initial_slashes rest popped
           | [] => normpath_comps initial_slashes rest new_comps
           end
  end.

Definition normpath (path : string) : string :=
  if String.eqb path "" then "."
  else
    let initial_slashes :=
      if pystr.startswith "/" path then
        if pystr.startswith "//" path && negb (pystr.startswith "///" path)
        then 2 else 1
      else 0 in
    let path' := join_sep (normpath_comps initial_slashes (pystr.split "/" path) []) in
    let path'' :=
      match initial_slashes with
      | 0 => path'
      | 1 => ("/" ++ path')%string
      | _ => ("//" ++ path')%string
      end in
    if String.eqb path'' "" then "." else path''.

(** [abspath(path)] with the working directory [cwd] *)
Definition abspath (cwd path : string) : string :=
  if isabs path then normpath path else normpath (join cwd path).

(** The longest common leading run of two sequences. *)
Fixpoint common_run {A} (eqb : A -> A -> bool) (s1 s2 : list A) : list A :=
  match s1, s2 with
  | c1 :: s1', c2 :: s2' => if eqb c1 c2 then c1 :: common_run eqb s1' s2' else []
  | _, _ => []
  end.

(** [commonprefix([a, b])]: the smaller string is compared, character by
    character, with the larger one. *)
Definition commonprefix (a b : string) : string :=
  let s1 := if String.leb a b then a else b in
  let s2 := if String.leb a b then b else a in
  string_of_list_ascii
    (common_run Ascii.eqb (list_ascii_of_string s1) (list_ascii_of_string s2)).

(** [basename(p)]: what follows the last slash. *)
Definition basename (p : string) : string := last (pystr.split "/" p) "".

Definition nonempty_fields (p : string) : list string :=
  filter (fun x => negb (String.eqb x "")) (pystr.split "/" p).

(** The computation of [relpath(path, start)] once [path] is known to be
    non-empty. *)
Definition relpath_of (cwd path start : string) : string :=
  let start_list := nonempty_fields (abspath cwd start) in
  let path_list := nonempty_fields (abspath cwd path) in
  let i := List.length (common_run String.eqb start_list path_list) in
  let rel_list := repeat pardir (List.length start_list - i) ++ skipn i path_list in
  match rel_list with
  | [] => curdir
  | a :: p => join_all a p
  end.

Definition relpath (cwd path start : string) : result string :=
  if String.eqb path "" then Raise (ValueError "no path specified")
  else Ok (relpath_of cwd path start).

End posixpath.

(** ** The platform *)

(** A member of an archive as the readers report it: its recorded name and
    its bytes. *)
Record Member : Type := { name : string; payload : string }.

(** What is on disk: regular files with their bytes, and directories, both
    under canonical absolute paths. *)
Record World : Type := { files : list (string * string); dirs : list string }.

(** Answers of the operating system and of the archive libraries. *)
Record Platform : Type := {
  getcwd : string;
  (** [os.walk(top)]: triples (root, dirnames, filenames), in any order *)
  os_walk : string -> list (string * list string * list string);
  (** [os.path.isfile] *)
  isfile : string -> bool;
  (** [open(filename, 'rb').read()] *)
  read_bytes : string -> result string;
  (** [tarfile.is_tarfile], [zipfile.is_zipfile] *)
  is_tarfile : string -> bool;
  is_zipfile : string -> bool;
  (** [tempfile.mkdtemp()]: the name of the directory it creates *)
  mkdtemp : World -> result string;
  (** [tarfile.open(path)] followed by [getmembers()] *)
  tarfile_open : string -> result (list Member);
  (** [tar.extractall(path, members, numeric_owner=...)] *)
  tar_extractall : list Member -> string -> World -> result unit * World;
  (** [zipfile.ZipFile(path)] followed by [infolist()] *)
  zipfile_open : string -> result (list Member);
  (** [zf.extractall(path=...)] *)
  zip_extractall : list Member -> string -> World -> result unit * World
}.

(** ** dosocs2/util.py *)

Local Open Scope result_scope.

(** [sha256(filename)] *)
Definition sha256 (P : Platform) (filename : string) : result string :=
  lines <- read_bytes P filename ;;
  Ok (hashlib.sha256_hexdigest lines).

(** [archive_type(path)] when both library checks answer; [Fallible] below
    has the function over checks that may raise. *)
Definition archive_type (P : Platform) (path : string) : option string :=
  if is_tarfile P path then Some "tar"
  else if is_zipfile P path then Some "zip"
  else None.

(** [file_name_for_id(file_name)] *)
Definition is_alnum (c : ascii) : bool :=
  let n := N_of_ascii c in
  ((65 <=? n) && (n <=? 90) || (97 <=? n) && (n <=? 122)
   || (48 <=? n) && (n <=? 57))%N.

Definition strip_illegal (c : ascii) : ascii :=
  if is_alnum c then c else "_"%char.

Fixpoint map_chars (f : ascii -> ascii) (s : string) : string :=
  match s with
  | EmptyString => EmptyString
  | String c s' => String (f c) (map_chars f s')
  end.

Definition file_name_for_id (file_name : string) : string :=
  let new1 := posixpath.basename file_name in
  pystr.slice 0 20 (map_chars strip_illegal new1).

(** ['-'.join(pieces)] *)
Definition join_hyphen (pieces : list string) : string := String.concat "-" pieces.

(** [gen_id_string(prefix, file_name, sha256)]; [uuid4] is the value of
    [str(uuid.uuid4())] drawn by the call.  An absent or empty [file_name] is
    falsy, and then a slice of [uuid4] is used. *)
Definition gen_id_string (uuid4 : string) (prefix : string)
           (file_name : option string) (sha256 : option string) : string :=
  let sha256part :=
    match sha256 with
    | None => pystr.slice 24 28 uuid4
    | Some h => pystr.slice 0 4 h
    end in
  let suffix := (sha256part ++ "-" ++ pystr.slice 0 8 uuid4)%string in
  let new_file_name :=
    file_name_for_id
      match file_name with
      | Some f => if String.eqb f "" then pystr.slice 9 39 uuid4 else f
      | None => pystr.slice 9 39 uuid4
      end in
  let pieces := ["SPDXRef"; prefix; new_file_name; suffix] in
  join_hyphen pieces.

(** [allpaths(path)] *)
Definition allpaths (P : Platform) (path : string) : list string :=
  flat_map (fun '(root, dirnames, filenames) =>
              map (fun dirname => posixpath.join root dirname) dirnames
              ++ map (fun filename => posixpath.join root filename) filenames)
           (os_walk P path).

(** [gen_ver_code(hashes, excluded_hashes)] *)
Definition gen_ver_code (hashes : list string) (excluded_hashes : option pyset)
  : string :=
  let excluded_hashes :=
    match excluded_hashes with None => [] | Some e => e end in
  let hashes_less_excluded :=
    filter (fun h => negb (set_mem h excluded_hashes)) hashes in
  let hashblob := pystr.join_empty (sorted hashes_less_excluded) in
  hashlib.sha1_hexdigest (pystr.encode_utf8 hashblob).

(** [abs_to_rel(startpath, path)] *)
Definition abs_to_rel (P : Platform) (startpath path : string) : result string :=
  rel <- posixpath.relpath (getcwd P) path startpath ;;
  Ok (posixpath.join posixpath.curdir rel).

(** The dict comprehension of [get_dir_hashes]: the files are hashed in
    listing order, and the first one that cannot be read ends the call. *)
Definition hash_items (P : Platform) (listing : list string)
  : result (list (string * string)) :=
  rmapM (fun abspath => h <- sha256 P abspath ;; Ok (abspath, h))
        (filter (isfile P) listing).

(** [get_dir_hashes(path, excluded_hashes)] *)
Definition get_dir_hashes (P : Platform) (path : string)
           (excluded_hashes : option pyset)
  : result (string * dict * string) :=
  let excluded_hashes :=
    match excluded_hashes with None => [] | Some e => e end in
  let listing := sorted (allpaths P path) in
  items <- hash_items P listing ;;
  let hashes := dict_of_items items in
  relative_listing <-
    rmapM (abs_to_rel P path)
          (filter (fun abspath =>
                     isfile P abspath
                     && not_in_set (dict_get hashes abspath) excluded_hashes)
                  listing) ;;
  let rel_listing_hashes :=
    map (fun relpath => hashlib.sha256_hexdigest (pystr.encode_utf8 relpath))
        (sorted relative_listing) in
  Ok (gen_ver_code (dict_values hashes) (Some excluded_hashes),
      hashes,
      gen_ver_code rel_listing_hashes None).

(** ** Temporary extraction *)

(** [p] is [d] itself or lies below it. *)
Definition under (d p : string) : bool :=
  String.eqb p d || pystr.startswith (d ++ "/") p.

Definition isdir (w : World) (d : string) : bool :=
  existsb (String.eqb d) (dirs w).

Definition mkdir (d : string) (w : World) : World :=
  {| files := files w; dirs := d :: dirs w |}.

(** What [shutil.rmtree(d)] leaves: nothing at or below [d]. *)
Definition purge (d : string) (w : World) : World :=
  {| files := filter (fun f => negb (under d (fst f))) (files w);
     dirs := filter (fun p => negb (under d p)) (dirs w) |}.

(** [shutil.rmtree(d)] on a tree that it is allowed to remove; [Fallible]
    below has the scopes over an [rmtree] that may raise part-way. *)
Definition rmtree (d : string) (w : World) : result unit * World :=
  if isdir w d then (Ok tt, purge d w) else (Raise (FileNotFoundError d), w).

(** The library calls that touch the extraction root, as they happen. *)
Inductive event : Type :=
| EvMkdtemp (d : string)
| EvExtractall (kind : string) (d : string)
| EvYield (d : string)
| EvRmtree (d : string).

(** A computation on the disk that may raise and that records its calls. *)
Definition proc (A : Type) : Type :=
  World * list event -> result A * (World * list event).

Definition pret {A} (a : A) : proc A := fun s => (Ok a, s).

Definition praise {A} (e : exn) : proc A := fun s => (Raise e, s).

Definition pbind {A B} (m : proc A) (k : A -> proc B) : proc B :=
  fun s =>
    match m s with
    | (Ok a, s') => k a s'
    | (Raise e, s') => (Raise e, s')
    end.

Definition emit (e : event) : proc unit :=
  fun s => (Ok tt, (fst s, snd s ++ [e])).

Definition lift_result {A} (r : result A) : proc A := fun s => (r, s).

Definition on_world {A} (f : World -> result A * World) : proc A :=
  fun s => let (r, w) := f (fst s) in (r, (w, snd s)).

(** [try: m finally: fin] -- [fin] always runs; when it raises, its
    exception replaces the outcome of [m]. *)
Definition try_finally {A} (m : proc A) (fin : proc unit) : proc A :=
  fun s =>
    let (r, s1) := m s in
    match fin s1 with
    | (Ok _, s2) => (r, s2)
    | (Raise e, s2) => (Raise e, s2)
    end.

Declare Scope proc_scope.
Delimit Scope proc_scope with proc.
Notation "x <- m ;; k" := (pbind m (fun x => k))
  (at level 61, m at next level, right associativity) : proc_scope.
Notation "m ;;; k" := (pbind m (fun _ => k))
  (at level 61, right associativity) : proc_scope.

(** [is_within_directory(directory, target)], local to [tempextract] *)
Definition is_within_directory (P : Platform) (directory target : string) : bool :=
  let abs_directory := posixpath.abspath (getcwd P) directory in
  let abs_target := posixpath.abspath (getcwd P) target in
  let prefix := posixpath.commonprefix abs_directory abs_target in
  String.eqb prefix abs_directory.

(** The [for member in tar.getmembers()] loop of [safe_extract] *)
Fixpoint check_members (P : Platform) (path : string) (members : list Member)
  : result unit :=
  match members with
  | [] => Ok tt
  | member :: rest =>
      let member_path := posixpath.join path (name member) in
      if negb (is_within_directory P path member_path)
      then Raise (Exception "Attempted Path Traversal in Tar File")
      else check_members P path rest
  end.

Local Open Scope proc_scope.

(** [safe_extract(tar, path=...)], local to [tempextract] *)
Definition safe_extract (P : Platform) (tar : list Member) (path : string)
  : proc unit :=
  lift_result (check_members P path tar) ;;;
  emit (EvExtractall "tar" path) ;;;
  on_world (tar_extractall P tar path).

(** The [try] block of [tempextract] after [tempdir] is bound, up to the
    [yield]: the value handed to the caller. *)
Definition tempextract_enter (P : Platform) (path tempdir : string)
  : proc (string * list string) :=
  let ar_type := archive_type P path in
  match ar_type with
  | Some kind =>
      if String.eqb kind "tar" then
        tf <- lift_result (tarfile_open P path) ;;
        let relpaths := map name tf in
        safe_extract P tf tempdir ;;;
        pret (tempdir, relpaths)
      else if String.eqb kind "zip" then
        zf <- lift_result (zipfile_open P path) ;;
        let relpaths := map name zf in
        emit (EvExtractall "zip" tempdir) ;;;
        on_world (zip_extractall P zf tempdir) ;;;
        pret (tempdir, relpaths)
      else praise (TypeError (path ++ " is not an archive file"))
  | None => praise (TypeError (path ++ " is not an archive file"))
  end.

(** [with tempextract(path) as v: body(v)].  The generator runs to its
    [yield], the caller's [body] runs at the [yield] (an exception of the body
    is raised there), and the [finally] clause runs on the way out.  When
    [mkdtemp] itself raises, [tempdir] is unbound in the [finally] clause. *)
Definition tempextract {A} (P : Platform) (path : string)
           (body : string * list string -> World -> result A * World)
  : proc A :=
  fun s =>
    match mkdtemp P (fst s) with
    | Raise _ => (Raise (UnboundLocalError "tempdir"), s)
    | Ok tempdir =>
        try_finally
          (emit (EvMkdtemp tempdir) ;;;
           on_world (fun w => (Ok tt, mkdir tempdir w)) ;;;
           v <- tempextract_enter P path tempdir ;;
           emit (EvYield tempdir) ;;;
           on_world (body v))
          (emit (EvRmtree tempdir) ;;;
           on_world (rmtree tempdir))
          s
    end.

(** [with tempdir() as d: body(d)] *)
Definition tempdir {A} (P : Platform)
           (body : string -> World -> result A * World) : proc A :=
  fun s =>
    match mkdtemp P (fst s) with
    | Raise e => (Raise e, s)
    | Ok d =>
        try_finally
          (emit (EvMkdtemp d) ;;;
           on_world (fun w => (Ok tt, mkdir d w)) ;;;
           emit (EvYield d) ;;;
           on_world (body d))
          (emit (EvRmtree d) ;;;
           on_world (rmtree d))
          s
    end.




(** Ascending in the order of [sorted]. *)
Definition ascending : list string -> Prop :=
  Sorted (fun a b => String.leb a b = true).

(** [excluded_hashes], with [None] read as the empty set. *)
Definition excluded_or_empty (E : option pyset) : pyset :=
  match E with None => [] | Some e => e end.

(** The entries of [H] that [gen_ver_code] keeps: those not in [E]. *)
Definition kept (E : option pyset) (H : list string) : list string :=
  filter (fun h => negb (set_mem h (excluded_or_empty E))) H.

(** The name [gen_id_string] sanitizes: [file_name or uuid4[9:39]]. *)
Definition effective_name (uuid4 : string) (file_name : option string) : string :=
  match file_name with
  | Some f => if String.eqb f "" then pystr.slice 9 39 uuid4 else f
  | None => pystr.slice 9 39 uuid4
  end.

(** The first half of the suffix of [gen_id_string]. *)
Definition sha256part (uuid4 : string) (sha256 : option string) : string :=
  match sha256 with
  | None => pystr.slice 24 28 uuid4
  | Some h => pystr.slice 0 4 h
  end.

(** What [abs_to_rel(root, p)] returns for a non-empty [p]. *)
Definition rel_of (P : Platform) (root p : string) : string :=
  posixpath.join posixpath.curdir (posixpath.relpath_of (getcwd P) p root).

(** [p] is reported by the walk of [path]: a directory or file name of one
    of its triples, joined to the root of that triple. *)
Definition walked (P : Platform) (path p : string) : Prop :=
  exists (root : string) (dirnames filenames : list string) (entry : string),
    In (root, dirnames, filenames) (os_walk P path)
    /\ In entry (dirnames ++ filenames)
    /\ p = posixpath.join root entry.

(** The verification-code procedure in the words of the specification (4.3),
    [sha1(concat(sorted(hashes)))]: [code] is the SHA-1 hex digest of the
    hashes put in ascending order and written one after the other with
    nothing in between. *)
Definition spec_verification_code (hashes : list string) (code : string) : Prop :=
  exists blob : list string,
    Permutation blob hashes /\ ascending blob
    /\ code = hashlib.sha1_hexdigest (String.concat "" blob).

(** The relative-identity code in the words of the specification (4.4, item
    3): the procedure of 4.3 on the SHA-256 digests of the relative path
    strings of the regular files under [path] whose content hash is not in
    [E], each file counted once.  The relative path string of [p] is the path
    from [path] to [p] behind the current-directory prefix. *)
Definition spec_relative_identity_code (P : Platform) (path : string)
           (content : string -> string) (E : pyset) (code : string) : Prop :=
  exists regular_files : list string,
    NoDup regular_files
    /\ (forall p : string,
           In p regular_files <->
           walked P path p /\ isfile P p = true
           /\ ~ In (hashlib.sha256_hexdigest (content p)) E)
    /\ spec_verification_code
         (map (fun p => hashlib.sha256_hexdigest
                          (pystr.encode_utf8
                             (posixpath.join posixpath.curdir
                                (posixpath.relpath_of (getcwd P) p path))))
              regular_files)
         code.

(** Every regular file the walk lists has a non-empty path and can be read,
    its bytes being [content p]. *)
Definition readable (P : Platform) (path : string) (content : string -> string)
  : Prop :=
  forall p : string,
    In p (allpaths P path) -> isfile P p = true ->
    p <> "" /\ read_bytes P p = Ok (content p).



(** ** A reference machine

    One concrete platform, used to run the definitions above.  The archive
    readers follow CPython: [tarfile] (before extraction filters) writes each
    member at [join(path, member.name)]; [zipfile] drops empty, [.] and [..]
    components of a member name before joining it to the target. *)

Module Reference.

Definition cwd : string := "/home/user".

Definition write_file (p c : string) (w : World) : World :=
  {| files := (p, c) :: filter (fun f => negb (String.eqb (fst f) p)) (files w);
     dirs := dirs w |}.

Definition tar_target (path : string) (m : Member) : string :=
  posixpath.abspath cwd (posixpath.join path (name m)).

Definition tar_extract (members : list Member) (path : string) (w : World)
  : result unit * World :=
  (Ok tt, fold_left (fun w m => write_file (tar_target path m) (payload m) w) members w).

Definition zip_target (path : string) (m : Member) : string :=
  let arcname :=
    posixpath.join_sep
      (filter (fun x => negb (String.eqb x "" || String.eqb x "." || String.eqb x ".."))
              (pystr.split "/" (name m))) in
  posixpath.abspath cwd (posixpath.normpath (posixpath.join path arcname)).

Definition zip_extract (members : list Member) (path : string) (w : World)
  : result unit * World :=
  (Ok tt, fold_left (fun w m => write_file (zip_target path m) (payload m) w) members w).

Definition tars : list (string * list Member) :=
  [("/in/ok.tar", [{| name := "a.txt"; payload := "A" |};
                   {| name := "dir/b.txt"; payload := "B" |}]);
   ("/in/dotdot.tar", [{| name := "a.txt"; payload := "A" |};
                       {| name := "../../etc/passwd"; payload := "root" |}]);
   ("/in/sibling.tar", [{| name := "../tmpabcdef/x"; payload := "X" |}]);
   ("/in/both", [{| name := "t"; payload := "T" |}])].

Definition zips : list (string * list Member) :=
  [("/in/evil.zip", [{| name := "../../etc/passwd"; payload := "root" |}]);
   ("/in/both", [{| name := "z"; payload := "Z" |}])].

Definition tree : list (string * string) :=
  [("/pkg/LICENSE", "GPL"); ("/pkg/README", "hello");
   ("/pkg/src/a.c", "int a;"); ("/pkg/src/b.c", "int a;")].

Fixpoint assoc {B} (k : string) (l : list (string * B)) : option B :=
  match l with
  | [] => None
  | (k', v) :: l' => if String.eqb k k' then Some v else assoc k l'
  end.

Definition has {B} (k : string) (l : list (string * B)) : bool :=
  match assoc k l with Some _ => true | None => false end.

Definition open_in (l : list (string * list Member)) (p : string)
  : result (list Member) :=
  match assoc p l with
  | Some ms => Ok ms
  | None => Raise (FileNotFoundError p)
  end.

Definition walk (top : string) : list (string * list string * list string) :=
  if String.eqb top "/pkg"
  then [("/pkg", ["src"], ["README"; "LICENSE"]); ("/pkg/src", [], ["b.c"; "a.c"])]
  else [].

Definition platform : Platform :=
  {| getcwd := cwd;
     os_walk := walk;
     isfile := fun p => has p tree;
     read_bytes := fun p => match assoc p tree with
                            | Some c => Ok c
                            | None => Raise (FileNotFoundError p)
                            end;
     is_tarfile := fun p => has p tars;
     is_zipfile := fun p => has p zips;
     mkdtemp := fun _ => Ok "/tmp/tmpabc";
     tarfile_open := open_in tars;
     tar_extractall := tar_extract;
     zipfile_open := open_in zips;
     zip_extractall := zip_extract |}.

(** The same machine with the walk answering in another order. *)
Definition platform' : Platform :=
  {| getcwd := cwd;
     os_walk := fun top =>
       if String.eqb top "/pkg"
       then [("/pkg/src", [], ["a.c"; "b.c"]); ("/pkg", ["src"], ["LICENSE"; "README"])]
       else [];
     isfile := isfile platform;
     read_bytes := read_bytes platform;
     is_tarfile := is_tarfile platform;
     is_zipfile := is_zipfile platform;
     mkdtemp := mkdtemp platform;
     tarfile_open := tarfile_open platform;
     tar_extractall := tar_extractall platform;
     zipfile_open := zipfile_open platform;
     zip_extractall := zip_extractall platform |}.

Definition empty_disk : World := {| files := []; dirs := ["/tmp"] |}.

(** A caller that only looks at what it is given. *)
Definition count_names (v : string * list string) (w : World)
  : result nat * World :=
  (Ok (List.length (snd v)), w).

(** A caller whose code raises inside the scope. *)
Definition failing_body (v : string * list string) (w : World)
  : result nat * World :=
  (Raise (ValueError "caller"), w).

Definition content (p : string) : string :=
  match assoc p tree with Some c => c | None => "" end.


(** The same machine on which the tar archive [bad] cannot be opened. *)
Definition broken_tar (bad : string) : Platform :=
  {| getcwd := cwd;
     os_walk := walk;
     isfile := isfile platform;
     read_bytes := read_bytes platform;
     is_tarfile := is_tarfile platform;
     is_zipfile := is_zipfile platform;
     mkdtemp := mkdtemp platform;
     tarfile_open := fun p =>
       if String.eqb p bad then Raise (OtherError "ReadError" p)
       else tarfile_open platform p;
     tar_extractall := tar_extractall platform;
     zipfile_open := zipfile_open platform;
     zip_extractall := zip_extractall platform |}.

End Reference.

(** ** Library calls that raise

    [tarfile.is_tarfile] and [zipfile.is_zipfile] open the path they are
    given, and [shutil.rmtree] unlinks every entry of the tree: each of the
    three can raise ([FileNotFoundError] or [IsADirectoryError] from the
    open, [PermissionError] from an unlink below a directory that is not
    writable).  The definitions above take these three calls where they
    return.  [Fallible] has [archive_type], [tempextract] and [tempdir] over
    a library whose three calls answer or raise as they please; [returning]
    embeds the first model in it. *)

Module Fallible.

Record Library : Type := {
  (** the other calls, as before *)
  base : Platform;
  (** [tarfile.is_tarfile(path)], [zipfile.is_zipfile(path)] *)
  tarfile_is_tarfile : string -> result bool;
  zipfile_is_zipfile : string -> result bool;
  (** [shutil.rmtree(d)]: its outcome and what it leaves on disk *)
  shutil_rmtree : string -> World -> result unit * World
}.

(** [archive_type(path)] *)
Definition archive_type (L : Library) (path : string) : result (option string) :=
  (is_tar <- tarfile_is_tarfile L path ;;
   if is_tar then Ok (Some "tar")
   else (is_zip <- zipfile_is_zipfile L path ;;
         if is_zip then Ok (Some "zip") else Ok None))%result.

(** The [try] block of [tempextract] after [tempdir] is bound, up to the
    [yield]. *)
Definition tempextract_enter (L : Library) (path tempdir : string)
  : proc (string * list string) :=
  ar_type <- lift_result (archive_type L path) ;;
  match ar_type with
  | Some kind =>
      if String.eqb kind "tar" then
        tf <- lift_result (tarfile_open (base L) path) ;;
        let relpaths := map name tf in
        safe_extract (base L) tf tempdir ;;;
        pret (tempdir, relpaths)
      else if String.eqb kind "zip" then
        zf <- lift_result (zipfile_open (base L) path) ;;
        let relpaths := map name zf in
        emit (EvExtractall "zip" tempdir) ;;;
        on_world (zip_extractall (base L) zf tempdir) ;;;
        pret (tempdir, relpaths)
      else praise (TypeError (path ++ " is not an archive file"))
  | None => praise (TypeError (path ++ " is not an archive file"))
  end.

(** [with tempextract(path) as v: body(v)] *)
Definition tempextract {A} (L : Library) (path : string)
           (body : string * list string -> World -> result A * World)
  : proc A :=
  fun s =>
    match mkdtemp (base L) (fst s) with
    | Raise _ => (Raise (UnboundLocalError "tempdir"), s)
    | Ok tempdir =>
        try_finally
          (emit (EvMkdtemp tempdir) ;;;
           on_world (fun w => (Ok tt, mkdir tempdir w)) ;;;
           v <- tempextract_enter L path tempdir ;;
           emit (EvYield tempdir) ;;;
           on_world (body v))
          (emit (EvRmtree tempdir) ;;;
           on_world (shutil_rmtree L tempdir))
          s
    end.

(** [with tempdir() as d: body(d)] *)
Definition tempdir {A} (L : Library)
           (body : string -> World -> result A * World) : proc A :=
  fun s =>
    match mkdtemp (base L) (fst s) with
    | Raise e => (Raise e, s)
    | Ok d =>
        try_finally
          (emit (EvMkdtemp d) ;;;
           on_world (fun w => (Ok tt, mkdir d w)) ;;;
           emit (EvYield d) ;;;
           on_world (body d))
          (emit (EvRmtree d) ;;;
           on_world (shutil_rmtree L d))
          s
    end.

(** The library whose checks answer what [P] says and whose [rmtree] always
    removes. *)
Definition returning (P : Platform) : Library :=
  {| base := P;
     tarfile_is_tarfile := fun path => Ok (is_tarfile P path);
     zipfile_is_zipfile := fun path => Ok (is_zipfile P path);
     shutil_rmtree := rmtree |}.


End Fallible.

(** The reference machine with the three calls as CPython has them.
    [tarfile.is_tarfile] lets the exception of its [open] pass;
    [zipfile.is_zipfile] answers [False] when its [open] fails. *)
Module ReferenceLibrary.

Definition plain_files : list string := ["/in/notes.txt"].

Definition directories : list string := ["/in"; "/tmp"].

(** [open(path, 'rb')] *)
Definition open_rb (path : string) : result unit :=
  if existsb (String.eqb path) directories
  then Raise (OtherError "IsADirectoryError" path)
  else if Reference.has path Reference.tars || Reference.has path Reference.zips
          || existsb (String.eqb path) plain_files
  then Ok tt
  else Raise (FileNotFoundError path).

Definition library : Fallible.Library :=
  {| Fallible.base := Reference.platform;
     Fallible.tarfile_is_tarfile := fun path =>
       (_ <- open_rb path ;; Ok (Reference.has path Reference.tars))%result;
     Fallible.zipfile_is_zipfile := fun path => Ok (Reference.has path Reference.zips);
     Fallible.shutil_rmtree := rmtree |}.





End ReferenceLibrary.

(** ** The other functions of dosocs2/util.py *)

(** [c.lower()] for a code point below 256: the ASCII capitals and the
    Latin-1 capitals (192..222 without the multiplication sign) move up by
    32. *)
Definition lower_char (c : ascii) : ascii :=
  let n := N_of_ascii c in
  if ((65 <=? n) && (n <=? 90)
      || (192 <=? n) && (n <=? 222) && negb (n =? 215))%N
  then ascii_of_N (n + 32)
  else c.

(** [s.lower()] *)
Definition str_lower (s : string) : string := map_chars lower_char s.

(** [bool_from_str(s)] *)
Definition bool_from_str (s : string) : result bool :=
  if String.eqb (str_lower s) "true" then Ok true
  else if String.eqb (str_lower s) "false" then Ok false
  else Raise (ValueError "Expected a string like 'true' or 'false'").

(** [needle in hay] on byte strings: [needle] starts at some position of
    [hay]. *)
Fixpoint bytes_in (needle hay : string) : bool :=
  String.prefix needle hay
  || match hay with
     | EmptyString => false
     | String _ hay' => bytes_in needle hay'
     end.

(** [is_source(magic_string)] *)
Definition is_source (magic_string : string) : bool :=
  bytes_in " source" magic_string && bytes_in " text" magic_string
  || bytes_in " script" magic_string && bytes_in " text" magic_string
  || bytes_in " program" magic_string && bytes_in " text" magic_string
  || bytes_in " shell script" magic_string
  || bytes_in " text executable" magic_string
  || bytes_in "HTML" magic_string && bytes_in "text" magic_string
  || bytes_in "XML" magic_string && bytes_in "text" magic_string.

(** [is_binary(magic_string)] *)
Definition is_binary (magic_string : string) : bool :=
  bytes_in " executable" magic_string
  || bytes_in " relocatable" magic_string
  || bytes_in " shared object" magic_string
  || bytes_in " dynamically linked" magic_string
  || bytes_in " ar archive" magic_string.

(** [spdx_filetype(filename)]; [magic_from_file] is [magic.from_file]. *)
Definition spdx_filetype (magic_from_file : string -> result string)
           (filename : string) : result string :=
  (magic_string <- magic_from_file filename ;;
   if is_source magic_string then Ok "SOURCE"
   else if is_binary magic_string then Ok "BINARY"
   else if bytes_in "archive" magic_string then Ok "ARCHIVE"
   else Ok "OTHER")%result.

(** [s[a:]] *)
Fixpoint str_from (a : nat) (s : string) : string :=
  match a, s with
  | O, _ => s
  | S a', EmptyString => EmptyString
  | S a', String _ s' => str_from a' s'
  end.

(** [s.endswith(suffix)] *)
Definition str_endswith (suffix s : string) : bool :=
  Nat.leb (String.length suffix) (String.length s)
  && String.eqb (str_from (String.length s - String.length suffix) s) suffix.

(** [s.rfind(c)] for one character: the last position of [c], or [-1]. *)
Fixpoint rfind (c : ascii) (s : string) : option nat :=
  match s with
  | EmptyString => None
  | String a s' =>
      match rfind c s' with
      | Some i => Some (S i)
      | None => if Ascii.eqb a c then Some O else None
      end
  end.

Definition rfind_index (c : ascii) (s : string) : Z :=
  match rfind c s with
  | Some i => Z.of_nat i
  | None => (-1)%Z
  end.

(** [os.path.splitext(p)]: split at the last dot of the last component,
    unless only dots precede it there. *)
Definition splitext (p : string) : string * string :=
  let sepIndex := rfind_index "/" p in
  let dotIndex := rfind_index "." p in
  if (sepIndex <? dotIndex)%Z then
    let filenameIndex := Z.to_nat (sepIndex + 1) in
    if existsb (fun c => negb (Ascii.eqb c "."))
               (list_ascii_of_string (pystr.slice filenameIndex (Z.to_nat dotIndex) p))
    then (pystr.slice 0 (Z.to_nat dotIndex) p, str_from (Z.to_nat dotIndex) p)
    else (p, "")
  else (p, "").

(** [package_friendly_name(package_file_name)] *)
Definition package_friendly_name (package_file_name : string) : string :=
  let newname := fst (splitext package_file_name) in
  if str_endswith ".tar" newname then fst (splitext newname) else newname.

(** [friendly_namespace_suffix(doc_name)]; [uuid4] is [str(uuid.uuid4())]. *)
Definition friendly_namespace_suffix (uuid4 doc_name : string) : string :=
  ("/" ++ doc_name ++ "-" ++ uuid4)%string.

(** The spellings of a lower-case ASCII word in which every letter is
    either kept or replaced by its capital. *)
Definition upper_char (c : ascii) : ascii := ascii_of_N (N_of_ascii c - 32).

Fixpoint casings (w : string) : list string :=
  match w with
  | EmptyString => [EmptyString]
  | String c w' =>
      flat_map (fun t => [String c t; String (upper_char c) t]) (casings w')
  end.

(** A digit of a lower-case hexadecimal numeral. *)
Definition is_hex (c : ascii) : bool :=
  let n := N_of_ascii c in
  ((48 <=? n) && (n <=? 57) || (97 <=? n) && (n <=? 102))%N.

(** ** DoSPDX.py *)

(** The values [docopt] puts in its dictionary: [None], a string, or a
    flag. *)
Inductive pyval : Type :=
| PyNone
| PyStr (s : string)
| PyBool (b : bool).

Definition pyval_eqb (a b : pyval) : bool :=
  match a, b with
  | PyNone, PyNone => true
  | PyStr s, PyStr t => String.eqb s t
  | PyBool x, PyBool y => Bool.eqb x y
  | _, _ => false
  end.

Definition is_none (v : pyval) : bool := pyval_eqb v PyNone.

(** Truth value of a Python object. *)
Definition truthy (v : pyval) : bool :=
  match v with
  | PyNone => false
  | PyStr s => negb (String.eqb s "")
  | PyBool b => b
  end.

(** [v or d] *)
Definition py_or (v d : pyval) : pyval := if truthy v then v else d.

(** [str(v)], as [str.format] inserts it *)
Definition py_str (v : pyval) : string :=
  match v with
  | PyNone => "None"
  | PyStr s => s
  | PyBool true => "True"
  | PyBool false => "False"
  end.

(** A dictionary with string keys.  It is read through its keys only
    ([pydict_get]); the order of the list stands for nothing, a dictionary of
    Python 2 having no order of its own. *)
Definition pydict := list (string * pyval).

Fixpoint pydict_get (d : pydict) (key : string) : option pyval :=
  match d with
  | [] => None
  | (k, v) :: d' => if String.eqb key k then Some v else pydict_get d' key
  end.

(** [d[key]] *)
Definition getitem (d : pydict) (key : string) : result pyval :=
  match pydict_get d key with
  | Some v => Ok v
  | None => Raise (OtherError "KeyError" key)
  end.

(** [format_map] *)
Definition format_map : pydict :=
  [("tag", PyStr "templates/2.0.tag"); ("rdf", PyStr "templates/2.0.rdf")].

(** The dictionary display of [extract_fields]: each field with the option
    it is read from.  The list follows the source, which is the order in
    which the display evaluates its [argv[...]] lookups. *)
Definition field_options : list (string * string) :=
  [("document_comment", "--comment");
   ("creator", "--creator");
   ("creator_comment", "--creator-comment");
   ("package_version", "--package-version");
   ("package_supplier", "--supplier");
   ("package_originator", "--originator");
   ("package_download_location", "--download-location");
   ("package_home_page", "--home-page");
   ("package_source_info", "--source-info");
   ("package_license_comments", "--license-comments");
   ("package_description", "--description")].

(** [extract_fields(argv)] *)
Definition extract_fields (argv : pydict) : result pydict :=
  (fields <- rmapM (fun fo => v <- getitem argv (snd fo) ;; Ok (fst fo, v))
                   field_options ;;
   Ok (map (fun kv => (fst kv, py_or (snd kv) (PyStr ""))) fields))%result.

Section DoSPDX.

(** The database layer (module [spdx]) is not part of these sources: the
    documents, the state of the database and what its three calls answer are
    parameters.  Its context manager is taken to let exceptions pass. *)
Variable Doc : Type.
Variable DB : Type.
Variable fetch_doc : DB -> pyval -> option Doc.
Variable scan_package_create_doc : DB -> pyval -> pyval * DB.
Variable render_doc : DB -> Doc -> string -> string.

(** A computation that prints lines, uses the database and may raise. *)
Definition io (A : Type) : Type :=
  list string * DB -> result A * (list string * DB).

Definition io_ret {A} (a : A) : io A := fun s => (Ok a, s).

Definition io_raise {A} (e : exn) : io A := fun s => (Raise e, s).

Definition io_bind {A B} (m : io A) (k : A -> io B) : io B :=
  fun s =>
    match m s with
    | (Ok a, s') => k a s'
    | (Raise e, s') => (Raise e, s')
    end.

Definition io_lift {A} (r : result A) : io A := fun s => (r, s).

(** [print(line)] *)
Definition io_print (line : string) : io unit :=
  fun s => (Ok tt, (fst s ++ [line], snd s)).

(** [sys.exit(1)] *)
Definition sys_exit_1 {A} : io A := io_raise (OtherError "SystemExit" "1").

(** [a + v] for a string [a]: a [TypeError] unless [v] is a string. *)
Definition str_add (a : string) (v : pyval) : result string :=
  match v with
  | PyStr s => Ok (a ++ s)%string
  | _ => Raise (TypeError "can only concatenate str to str")
  end.

(** The local variable [document] of [main]: not yet assigned, or bound to
    [None] or to a document. *)
Definition binding : Type := option (option Doc).

(** [main()]; [sys_argv0] is [sys.argv[0]] and [argv] what [docopt]
    returned. *)
Definition main (sys_argv0 : string) (argv : pydict) : io unit :=
  let progname := posixpath.basename sys_argv0 in
  io_bind (io_lift (getitem argv "--doc-id")) (fun doc_id =>
  io_bind (if is_none doc_id
           then io_bind (io_lift (getitem argv "FILE"))
                        (fun file => io_ret (is_none file))
           else io_ret false) (fun nothing_given =>
  io_bind (if nothing_given
           then io_bind (io_print (progname ++ ": You must specify a file or document ID"))
                  (fun _ =>
                io_bind (io_print (progname ++ ": Try `" ++ progname
                                     ++ " --help' for more information."))
                  (fun _ => sys_exit_1))
           else io_ret tt) (fun _ =>
  io_bind (io_lift (extract_fields argv)) (fun fields =>
  io_bind (io_lift (getitem argv "FILE")) (fun package_path =>
  io_bind (io_lift (getitem argv "--doc-id")) (fun docid =>
  io_bind (io_lift (getitem argv "--no-scan")) (fun no_scan =>
  let scan := negb (truthy no_scan) in
  io_bind (io_lift (getitem argv "--print")) (fun output_format =>
  io_bind (if negb (pyval_eqb output_format (PyStr "tag")
                    || pyval_eqb output_format (PyStr "rdf")
                    || pyval_eqb output_format PyNone)
           then io_bind (io_lift (str_add (progname ++ ": Unknown output format '")
                                          output_format))
                  (fun msg =>
                io_bind (io_print (msg ++ "'")) (fun _ =>
                io_bind (io_print (progname ++ ": Try `" ++ progname
                                     ++ " --help' for more information."))
                  (fun _ => sys_exit_1)))
           else io_ret tt) (fun _ =>
  io_bind (if negb (is_none docid)
           then fun s =>
                  match fetch_doc (snd s) docid with
                  | None =>
                      io_bind (io_print ("Document id " ++ py_str docid
                                           ++ " not found in the database."))
                              (fun _ => sys_exit_1) s
                  | Some document => (Ok (Some (Some document)), s)
                  end
           else if scan
           then fun s =>
                  let (docid', db') := scan_package_create_doc (snd s) package_path in
                  (Ok (Some (fetch_doc db' docid')), (fst s, db'))
           else io_ret None) (fun document : binding =>
  match document with
  | None => io_raise (UnboundLocalError "document")
  | Some None => io_ret tt
  | Some (Some doc) =>
      if negb (is_none output_format)
      then io_bind (io_lift (getitem format_map (py_str output_format)))
             (fun template =>
              fun s => io_print (render_doc (snd s) doc (py_str template)) s)
      else io_ret tt
  end)))))))))).

End DoSPDX.

(** Every option that [extract_fields] reads is a key of [argv]. *)
Definition has_field_options (argv : pydict) : Prop :=
  forall option : string,
    In option (map snd field_options) -> exists v, getitem argv option = Ok v.

(** The value [argv] has for an option ([None] for a missing one). *)
Definition option_value (argv : pydict) (option : string) : pyval :=
  match pydict_get argv option with
  | Some v => v
  | None => PyNone
  end.

(** What [docopt] returns for [DoSPDX.py --creator "Tool: dosocs2" FILE],
    with [FILE] and the flags left to the caller. *)
Definition docopt_result (doc_id file no_scan print : pyval) : pydict :=
  [("--comment", PyNone); ("--creator", PyStr "Tool: dosocs2");
   ("--creator-comment", PyNone); ("--description", PyNone);
   ("--doc-id", doc_id); ("--download-location", PyNone);
   ("--home-page", PyNone); ("--license-comments", PyNone);
   ("--no-scan", no_scan); ("--originator", PyNone);
   ("--package-version", PyNone); ("--print", print);
   ("--source-info", PyNone); ("--supplier", PyNone);
   ("FILE", file)].

(** A small database to run [main] on: documents are strings, stored under
    their ids. *)
Module ReferenceDB.

Definition fetch (db : list (string * string)) (id : pyval) : option string :=
  Reference.assoc (py_str id) db.

Definition scan (db : list (string * string)) (package_path : pyval)
  : pyval * list (string * string) :=
  (PyStr "new", ("new", ("document of " ++ py_str package_path)%string) :: db).

Definition render (db : list (string * string)) (doc template : string) : string :=
  (template ++ ": " ++ doc)%string.

Definition run : string -> pydict -> io (list (string * string)) unit :=
  main string (list (string * string)) fetch scan render.

Definition stored : list (string * string) := [("7", "document seven")].

End ReferenceDB.

(** * Properties *)

(** ** The hash functions agree with the published test vectors *)

Example sha1_vectors :
  map hashlib.sha1_hexdigest [""; "abc"] =
  ["da39a3ee5e6b4b0d3255bfef95601890afd80709";
   "a9993e364706816aba3e25717850c26c9cd0d89d"].
Proof. vm_compute. reflexivity. Qed.

Example sha256_vectors :
  map hashlib.sha256_hexdigest [""; "abc"] =
  ["e3b0c44298fc1c149afbf4c8996fb92427ae41e4649b934ca495991b7852b855";
   "ba7816bf8f01cfea414140de5dae2223b00361a396177a9cb410ff61f20015ad"].
Proof. vm_compute. reflexivity. Qed.

(** Two blocks: a message of 119 bytes. *)
Example sha_two_blocks :
  let m := string_of_list_ascii (repeat "a"%char 119) in
  hashlib.sha1_hexdigest m = "ee971065aaa017e0632a8ca6c77bb3bf8b1dfc56"
  /\ hashlib.sha256_hexdigest m
     = "31eba51c313a5c08226adf18d4a359cfdfd8d2e816b13f4af952f7ea6584dcfb".
Proof. vm_compute. split; reflexivity. Qed.

(** ** The path functions on a few inputs *)

Example normpath_examples :
  map posixpath.normpath
      [""; "/"; "//a/b"; "///a//b/"; "a/../b"; "../a"; "/../a"; "a/../..";
       "/tmp/tmpabc/../tmpabcdef/x"]
  = ["."; "/"; "//a/b"; "/a/b"; "b"; "../a"; "/a"; "..";
     "/tmp/tmpabcdef/x"].
Proof. vm_compute. reflexivity. Qed.

Example join_examples :
  posixpath.join "/tmp/tmpabc" "../tmpabcdef/x" = "/tmp/tmpabc/../tmpabcdef/x"
  /\ posixpath.join "/tmp/tmpabc" "/etc/passwd" = "/etc/passwd"
  /\ posixpath.join "/tmp/tmpabc/" "a.txt" = "/tmp/tmpabc/a.txt"
  /\ posixpath.commonprefix "/tmp/tmpabc" "/tmp/tmpabcdef/x" = "/tmp/tmpabc"
  /\ posixpath.commonprefix "/tmp/tmpabc" "/etc/passwd" = "/".
Proof. vm_compute. repeat split. Qed.

Example abs_to_rel_examples :
  map (abs_to_rel Reference.platform "/pkg") ["/pkg/src/a.c"; "/pkg"; "/other/x"; ""]
  = [Ok "./src/a.c"; Ok "./."; Ok "./../other/x";
     Raise (ValueError "no path specified")].
Proof. vm_compute. reflexivity. Qed.

Example sorted_example :
  sorted ["b"; "B"; "ab"; ""; "a"; "b"; "0"] = [""; "0"; "B"; "a"; "ab"; "b"; "b"].
Proof. vm_compute. reflexivity. Qed.

(** ** Order on strings and [sorted] *)

Section StringOrder.

Lemma ascii_compare_refl (a : ascii) : Ascii.compare a a = Eq.
Proof. unfold Ascii.compare. apply N.compare_refl. Qed.

Lemma ascii_compare_lt_trans (a b c : ascii) :
  Ascii.compare a b = Lt -> Ascii.compare b c = Lt -> Ascii.compare a c = Lt.
Proof.
  unfold Ascii.compare. rewrite !N.compare_lt_iff. apply N.lt_trans.
Qed.

Lemma string_leb_refl (s : string) : String.leb s s = true.
Proof.
  destruct (String.leb_total s s); assumption.
Qed.

Lemma string_leb_trans (a b c : string) :
  String.leb a b = true -> String.leb b c = true -> String.leb a c = true.
Proof.
  unfold String.leb. revert b c.
  induction a as [|x a IH]; intros [|y b] [|z c]; simpl; try congruence.
  destruct (Ascii.compare x y) eqn:Exy; try congruence;
    destruct (Ascii.compare y z) eqn:Eyz; try congruence.
  - apply Ascii.compare_eq_iff in Exy, Eyz. subst.
    rewrite ascii_compare_refl. apply IH.
  - apply Ascii.compare_eq_iff in Exy. subst. rewrite Eyz. reflexivity.
  - apply Ascii.compare_eq_iff in Eyz. subst. rewrite Exy. reflexivity.
  - rewrite (ascii_compare_lt_trans _ _ _ Exy Eyz). reflexivity.
Qed.

Lemma string_leb_false (a b : string) :
  String.leb a b = false -> String.leb b a = true.
Proof.
  intros H. destruct (String.leb_total a b) as [H'|H']; congruence.
Qed.

Lemma insert_sorted_comm (x y : string) (l : list string) :
  insert_sorted x (insert_sorted y l) = insert_sorted y (insert_sorted x l).
Proof.
  induction l as [|c l IH]; simpl.
  - destruct (String.leb x y) eqn:Hxy, (String.leb y x) eqn:Hyx; try reflexivity.
    + rewrite (String.leb_antisym _ _ Hxy Hyx). reflexivity.
    + apply string_leb_false in Hxy. congruence.
  - destruct (String.leb y c) eqn:Hyc, (String.leb x c) eqn:Hxc; simpl.
    + destruct (String.leb x y) eqn:Hxy, (String.leb y x) eqn:Hyx;
        rewrite ?Hxc, ?Hyc; try reflexivity.
      * rewrite (String.leb_antisym _ _ Hxy Hyx). reflexivity.
      * apply string_leb_false in Hxy. congruence.
    + destruct (String.leb x y) eqn:Hxy.
      * rewrite (string_leb_trans _ _ _ Hxy Hyc) in Hxc. discriminate.
      * rewrite Hxc, Hyc. reflexivity.
    + destruct (String.leb y x) eqn:Hyx.
      * rewrite (string_leb_trans _ _ _ Hyx Hxc) in Hyc. discriminate.
      * rewrite Hxc, Hyc. reflexivity.
    + rewrite Hxc, Hyc, IH. reflexivity.
Qed.

Lemma sorted_permutation (l l' : list string) :
  Permutation l l' -> sorted l = sorted l'.
Proof.
  induction 1; simpl.
  - reflexivity.
  - f_equal. assumption.
  - apply insert_sorted_comm.
  - congruence.
Qed.

Lemma insert_sorted_perm (x : string) (l : list string) :
  Permutation (insert_sorted x l) (x :: l).
Proof.
  induction l as [|c l IH]; simpl.
  - apply Permutation_refl.
  - destruct (String.leb x c).
    + apply Permutation_refl.
    + eapply perm_trans; [apply perm_skip, IH | apply perm_swap].
Qed.

Lemma sorted_perm (l : list string) : Permutation (sorted l) l.
Proof.
  induction l as [|x l IH]; simpl.
  - constructor.
  - eapply perm_trans; [apply insert_sorted_perm | apply perm_skip, IH].
Qed.

Lemma insert_sorted_ascending (x : string) (l : list string) :
  ascending l -> ascending (insert_sorted x l).
Proof.
  unfold ascending. induction 1 as [|c l Hl IH Hc]; simpl.
  - repeat constructor.
  - destruct (String.leb x c) eqn:Hxc.
    + constructor; [constructor; assumption | constructor; assumption].
    + constructor; [assumption|].
      destruct l as [|c' l]; simpl in *.
      * constructor. apply string_leb_false. assumption.
      * destruct (String.leb x c'); constructor.
        -- apply string_leb_false. assumption.
        -- inversion Hc. assumption.
Qed.

Lemma sorted_ascending (l : list string) : ascending (sorted l).
Proof.
  induction l; simpl.
  - constructor.
  - apply insert_sorted_ascending. assumption.
Qed.

Lemma sorted_In (l : list string) (x : string) : In x (sorted l) <-> In x l.
Proof.
  split; apply Permutation_in; [|apply Permutation_sym]; apply sorted_perm.
Qed.

End StringOrder.

(** ** Verification codes *)

Section VerificationCode.

Lemma kept_app (E : option pyset) (H D : list string) :
  kept E (H ++ D) = kept E H ++ kept E D.
Proof. unfold kept. apply filter_app. Qed.

Lemma kept_excluded (E : option pyset) (D : list string) :
  (forall d, In d D -> set_mem d (excluded_or_empty E) = true) ->
  kept E D = [].
Proof.
  unfold kept. induction D as [|d D IH]; intros HD; simpl.
  - reflexivity.
  - rewrite (HD d (or_introl eq_refl)). simpl.
    apply IH. intros d' Hd'. apply HD. right. assumption.
Qed.

Lemma gen_ver_code_kept (H : list string) (E : option pyset) :
  gen_ver_code H E =
  hashlib.sha1_hexdigest (pystr.encode_utf8 (pystr.join_empty (sorted (kept E H)))).
Proof. destruct E; reflexivity. Qed.

Lemma gen_ver_code_permutation (H H' : list string) (E : option pyset) :
  Permutation H H' -> gen_ver_code H E = gen_ver_code H' E.
Proof.
  intros HP. rewrite !gen_ver_code_kept.
  rewrite (sorted_permutation (kept E H) (kept E H')); [reflexivity|].
  unfold kept. clear -HP. induction HP; simpl.
  - constructor.
  - destruct (negb _); [constructor|]; assumption.
  - destruct (negb (set_mem x _)), (negb (set_mem y _));
      try (repeat constructor; apply Permutation_refl); apply perm_swap.
  - eapply perm_trans; eassumption.
Qed.

End VerificationCode.

(** C4, as the code has it.  [gen_ver_code(H, E)] is the SHA-1 hex digest of
    the separator-free concatenation of the ascending rearrangement of the
    entries of [H] that are not in [E], each entry as often as it occurs.
    Two inputs whose entries outside [E] are rearrangements of each other get
    the same code; in particular appending copies of excluded entries changes
    nothing.  Repeated entries outside [E] are not collapsed. *)
Theorem gen_ver_code_multiset (H H' : list string) (E : option pyset) :
  Permutation (kept E H) (kept E H') ->
  gen_ver_code H E = gen_ver_code H' E
  /\ (exists blob : list string,
         Permutation blob (kept E H) /\ ascending blob
         /\ gen_ver_code H E =
            hashlib.sha1_hexdigest (pystr.encode_utf8 (pystr.join_empty blob)))
  /\ (forall D : list string,
         (forall d, In d D -> set_mem d (excluded_or_empty E) = true) ->
         gen_ver_code (H ++ D) E = gen_ver_code H E).
Proof.
  intros HP. split; [|split].
  - rewrite !gen_ver_code_kept, (sorted_permutation _ _ HP). reflexivity.
  - exists (sorted (kept E H)). split; [|split].
    + apply sorted_perm.
    + apply sorted_ascending.
    + apply gen_ver_code_kept.
  - intros D HD.
    rewrite !gen_ver_code_kept, kept_app, (kept_excluded E D HD), app_nil_r.
    reflexivity.
Qed.

Lemma gen_ver_code_multiset_witness :
  Permutation (kept (Some ["x"]) ["b"; "a"; "x"]) (kept (Some ["x"]) ["a"; "x"; "b"; "x"])
  /\ gen_ver_code ["b"; "a"; "x"] (Some ["x"])
     = gen_ver_code ["a"; "x"; "b"; "x"] (Some ["x"]).
Proof.
  assert (HP : Permutation (kept (Some ["x"]) ["b"; "a"; "x"])
                           (kept (Some ["x"]) ["a"; "x"; "b"; "x"])).
  { simpl. apply perm_swap. }
  split; [exact HP|].
  exact (proj1 (gen_ver_code_multiset ["b"; "a"; "x"] ["a"; "x"; "b"; "x"]
                  (Some ["x"]) HP)).
Defined.

(** C4, as the claim states it, fails: a repeated hash that is not excluded
    changes the code. *)
Lemma gen_ver_code_duplicates_differ :
  gen_ver_code (["a"] ++ ["a"]) None <> gen_ver_code ["a"] None.
Proof. vm_compute. discriminate. Qed.

(** C8: on no hashes at all, whatever the exclusion set, [gen_ver_code] is
    the SHA-1 digest of the empty string, a fixed hex string; it is a total
    function, so there is no error to raise. *)
Theorem gen_ver_code_empty (E : option pyset) :
  gen_ver_code [] E = hashlib.sha1_hexdigest ""
  /\ gen_ver_code [] E = "da39a3ee5e6b4b0d3255bfef95601890afd80709".
Proof. destruct E; split; vm_compute; reflexivity. Qed.

(** ** Archive classification *)

(** C10, as the code has it.  [archive_type] asks [tarfile.is_tarfile]
    first and [zipfile.is_zipfile] only after the tar check has answered
    [False], and it handles no exception.  So it returns ['tar'] exactly
    when the tar check answers [True] (whatever the zip check would say),
    ['zip'] exactly when the tar check answers [False] and the zip check
    [True], [None] exactly when both answer [False], and it raises exactly
    what a check that it asks raises; when it returns, the result is one of
    the three. *)
Theorem archive_type_outcomes (L : Fallible.Library) (path : string) :
  (Fallible.archive_type L path = Ok (Some "tar")
   <-> Fallible.tarfile_is_tarfile L path = Ok true)
  /\ (Fallible.archive_type L path = Ok (Some "zip")
      <-> Fallible.tarfile_is_tarfile L path = Ok false
          /\ Fallible.zipfile_is_zipfile L path = Ok true)
  /\ (Fallible.archive_type L path = Ok None
      <-> Fallible.tarfile_is_tarfile L path = Ok false
          /\ Fallible.zipfile_is_zipfile L path = Ok false)
  /\ (forall e : exn,
         Fallible.archive_type L path = Raise e
         <-> Fallible.tarfile_is_tarfile L path = Raise e
             \/ (Fallible.tarfile_is_tarfile L path = Ok false
                 /\ Fallible.zipfile_is_zipfile L path = Raise e))
  /\ (forall kind : option string,
         Fallible.archive_type L path = Ok kind ->
         kind = Some "tar" \/ kind = Some "zip" \/ kind = None).
Proof.
  unfold Fallible.archive_type, rbind.
  destruct (Fallible.tarfile_is_tarfile L path) as [[|]|e1];
    [| destruct (Fallible.zipfile_is_zipfile L path) as [[|]|e2] |];
    (split; [|split; [|split; [|split]]]);
    try (intros kind [= <-]; tauto);
    try (intros kind H; discriminate H);
    try (intros e); intuition (try discriminate; try congruence).
Qed.

Lemma archive_type_outcomes_witness :
  Fallible.archive_type ReferenceLibrary.library "/in/both" = Ok (Some "tar")
  /\ Fallible.archive_type ReferenceLibrary.library "/in/evil.zip" = Ok (Some "zip")
  /\ Fallible.archive_type ReferenceLibrary.library "/in/notes.txt" = Ok None
  /\ Fallible.archive_type ReferenceLibrary.library "/in/missing"
     = Raise (FileNotFoundError "/in/missing").
Proof.
  split; [|split; [|split]].
  - apply (proj1 (archive_type_outcomes ReferenceLibrary.library "/in/both")).
    reflexivity.
  - apply (proj1 (proj2 (archive_type_outcomes ReferenceLibrary.library "/in/evil.zip"))).
    split; reflexivity.
  - apply (proj1 (proj2 (proj2 (archive_type_outcomes ReferenceLibrary.library
                                  "/in/notes.txt")))).
    split; reflexivity.
  - apply (proj1 (proj2 (proj2 (proj2 (archive_type_outcomes ReferenceLibrary.library
                                         "/in/missing"))))
                 (FileNotFoundError "/in/missing")).
    left. reflexivity.
Defined.

(** C10, as the claim states it, fails: a directory is neither a tar nor a
    zip container, and [archive_type] does not answer [None] for it but
    raises what [tarfile.is_tarfile] raises; so it does for a path that does
    not exist. *)
Lemma archive_type_raises_on_directory :
  Reference.has "/in" Reference.tars = false
  /\ Reference.has "/in" Reference.zips = false
  /\ Fallible.archive_type ReferenceLibrary.library "/in"
     = Raise (OtherError "IsADirectoryError" "/in")
  /\ Fallible.archive_type ReferenceLibrary.library "/in/missing"
     = Raise (FileNotFoundError "/in/missing").
Proof. split; [|split; [|split]]; reflexivity. Qed.

(** Where the two checks answer, [Fallible.archive_type] is [archive_type]. *)
Lemma returning_archive_type (P : Platform) (path : string) :
  Fallible.archive_type (Fallible.returning P) path = Ok (archive_type P path).
Proof.
  unfold Fallible.archive_type, archive_type. simpl.
  destruct (is_tarfile P path); [reflexivity|].
  destruct (is_zipfile P path); reflexivity.
Qed.

(** ** Identifier strings *)

Section Identifiers.

Lemma string_app_assoc (a b c : string) :
  ((a ++ b) ++ c = a ++ (b ++ c))%string.
Proof. induction a; simpl; congruence. Qed.

Lemma string_app_length (a b : string) :
  String.length (a ++ b) = String.length a + String.length b.
Proof. induction a; simpl; congruence. Qed.


Lemma substring_0_length (m : nat) (s : string) :
  String.length (substring 0 m s) = Nat.min m (String.length s).
Proof.
  revert s. induction m as [|m IH]; intros [|c s]; simpl; try reflexivity.
  rewrite IH. reflexivity.
Qed.



Lemma strip_illegal_legal (c : ascii) :
  is_alnum (strip_illegal c) = true \/ strip_illegal c = "_"%char.
Proof.
  unfold strip_illegal. destruct (is_alnum c) eqn:E; [left|right]; auto.
Qed.

Lemma substring_0_Forall (Q : ascii -> Prop) (m : nat) (s : string) :
  Forall Q (list_ascii_of_string s) ->
  Forall Q (list_ascii_of_string (substring 0 m s)).
Proof.
  revert s. induction m as [|m IH]; intros [|c s] H; simpl; try constructor.
  - inversion H. assumption.
  - apply IH. inversion H. assumption.
Qed.

Lemma map_chars_Forall (s : string) :
  Forall (fun c => is_alnum c = true \/ c = "_"%char)
         (list_ascii_of_string (map_chars strip_illegal s)).
Proof.
  induction s; simpl; constructor; auto using strip_illegal_legal.
Qed.

Lemma gen_id_string_pieces (u prefix : string) (fn h : option string) :
  gen_id_string u prefix fn h =
  (("SPDXRef-" ++ prefix ++ "-" ++ file_name_for_id (effective_name u fn)
      ++ "-" ++ sha256part u h ++ "-") ++ pystr.slice 0 8 u)%string.
Proof.
  unfold gen_id_string, join_hyphen, effective_name, sha256part. simpl.
  rewrite !string_app_assoc. simpl.
  repeat (f_equal; rewrite ?string_app_assoc; simpl).
Qed.

End Identifiers.




(** ** Directory fingerprints *)

Section Fingerprint.

Lemma filter_permutation {A} (f : A -> bool) (l l' : list A) :
  Permutation l l' -> Permutation (filter f l) (filter f l').
Proof.
  induction 1; simpl.
  - constructor.
  - destruct (f x); [constructor|]; assumption.
  - destruct (f x), (f y);
      try (repeat constructor; apply Permutation_refl); apply perm_swap.
  - eapply perm_trans; eassumption.
Qed.

Lemma filter_andb {A} (f g : A -> bool) (l : list A) :
  filter (fun a => f a && g a) l = filter g (filter f l).
Proof.
  induction l as [|a l IH]; simpl; [reflexivity|].
  destruct (f a); simpl; [destruct (g a)|]; congruence.
Qed.

Lemma sorted_eq_permutation (l l' : list string) :
  sorted l = sorted l' -> Permutation l l'.
Proof.
  intros H. eapply perm_trans; [apply Permutation_sym, sorted_perm|].
  rewrite H. apply sorted_perm.
Qed.

Lemma rmapM_ok {A B} (f : A -> result B) (g : A -> B) (l : list A) :
  (forall a, In a l -> f a = Ok (g a)) -> rmapM f l = Ok (map g l).
Proof.
  induction l as [|a l IH]; intros H; simpl.
  - reflexivity.
  - rewrite (H a (or_introl eq_refl)). simpl.
    rewrite IH; [reflexivity|]. intros b Hb. apply H. right. assumption.
Qed.

Lemma dict_get_set (k v k' : string) (d : dict) :
  dict_get (dict_set k v d) k' =
  if String.eqb k' k then Some v else dict_get d k'.
Proof.
  induction d as [|[k0 v0] d IH]; simpl.
  - reflexivity.
  - destruct (String.eqb_spec k k0) as [->|Hk]; simpl.
    + destruct (String.eqb k' k0); reflexivity.
    + rewrite IH. destruct (String.eqb_spec k' k0) as [->|Hk'].
      * destruct (String.eqb_spec k0 k); [congruence|reflexivity].
      * reflexivity.
Qed.

Lemma dict_get_fold (g : string -> string) (l : list string) (d : dict)
      (k : string) :
  dict_get (fold_left (fun d kv => dict_set (fst kv) (snd kv) d)
                      (map (fun p => (p, g p)) l) d) k =
  if existsb (String.eqb k) l then Some (g k) else dict_get d k.
Proof.
  revert d. induction l as [|p l IH]; intros d; simpl.
  - reflexivity.
  - rewrite IH, dict_get_set.
    destruct (existsb (String.eqb k) l); simpl.
    + rewrite orb_true_r. reflexivity.
    + rewrite orb_false_r.
      destruct (String.eqb_spec k p) as [->|]; reflexivity.
Qed.

Lemma dict_get_of_items (g : string -> string) (l : list string) (k : string) :
  dict_get (dict_of_items (map (fun p => (p, g p)) l)) k =
  if existsb (String.eqb k) l then Some (g k) else None.
Proof. unfold dict_of_items. rewrite dict_get_fold. reflexivity. Qed.

Lemma existsb_eqb_In (k : string) (l : list string) :
  existsb (String.eqb k) l = true <-> In k l.
Proof.
  rewrite existsb_exists. split.
  - intros [x [Hx Hk]]. apply String.eqb_eq in Hk. subst. assumption.
  - intros H. exists k. split; [assumption | apply String.eqb_refl].
Qed.

End Fingerprint.

Section ReadableTree.

Variable P : Platform.
Variable path : string.
Variable content : string -> string.
Hypothesis Hread : readable P path content.

Let listing : list string := sorted (allpaths P path).
Let digest (p : string) : string := hashlib.sha256_hexdigest (content p).
Let hashes : dict :=
  dict_of_items (map (fun p => (p, digest p)) (filter (isfile P) listing)).

Lemma hash_items_readable :
  hash_items P listing =
  Ok (map (fun p => (p, digest p)) (filter (isfile P) listing)).
Proof.
  unfold hash_items. apply rmapM_ok. intros p Hp.
  apply filter_In in Hp. destruct Hp as [Hin Hfile].
  apply (proj1 (sorted_In _ _)) in Hin. destruct (Hread p Hin Hfile) as [_ Hr].
  unfold sha256. rewrite Hr. reflexivity.
Qed.

Lemma hashes_get (p : string) :
  In p (allpaths P path) -> isfile P p = true ->
  dict_get hashes p = Some (digest p).
Proof.
  intros Hin Hfile. unfold hashes. rewrite dict_get_of_items.
  replace (existsb (String.eqb p) (filter (isfile P) listing)) with true;
    [reflexivity|].
  symmetry. apply existsb_eqb_In, filter_In. split; [|assumption].
  apply (proj2 (sorted_In _ _)). assumption.
Qed.


Lemma abs_to_rel_nonempty (p : string) :
  p <> "" -> abs_to_rel P path p = Ok (rel_of P path p).
Proof.
  intros Hp. unfold abs_to_rel, posixpath.relpath.
  destruct (String.eqb_spec p ""); [contradiction|reflexivity].
Qed.

Lemma get_dir_hashes_readable (E : option pyset) :
  get_dir_hashes P path E =
  Ok (gen_ver_code (dict_values hashes) (Some (excluded_or_empty E)),
      hashes,
      gen_ver_code
        (map (fun relpath => hashlib.sha256_hexdigest (pystr.encode_utf8 relpath))
             (sorted (map (rel_of P path)
                          (filter (fun p => isfile P p
                                            && negb (set_mem (digest p) (excluded_or_empty E)))
                                  listing))))
        None).
Proof.
  unfold get_dir_hashes. fold listing. fold (excluded_or_empty E).
  rewrite hash_items_readable. simpl. fold hashes.
  rewrite (filter_ext_in
             (fun abspath => isfile P abspath
                             && not_in_set (dict_get hashes abspath) (excluded_or_empty E))
             (fun p => isfile P p && negb (set_mem (digest p) (excluded_or_empty E)))).
  2:{ intros p Hp. apply (proj1 (sorted_In _ _)) in Hp.
      destruct (isfile P p) eqn:Hf; [|reflexivity].
      rewrite (hashes_get p Hp Hf). reflexivity. }
  rewrite (rmapM_ok (abs_to_rel P path) (rel_of P path)).
  2:{ intros p Hp. apply filter_In in Hp. destruct Hp as [Hin Hp].
      apply andb_prop in Hp. destruct Hp as [Hf _].
      apply (proj1 (sorted_In _ _)) in Hin.
      apply abs_to_rel_nonempty. apply (Hread p Hin Hf). }
  reflexivity.
Qed.

End ReadableTree.

(** C5: two runs of [get_dir_hashes] over the same tree give the same
    triple (or the same exception), whatever the order in which the walk
    hands out the paths: the platforms of the two runs agree on the working
    directory, on [isfile] and on the file contents, and list the same paths
    in any two orders. *)
Theorem get_dir_hashes_deterministic (P1 P2 : Platform) (path : string)
        (E : option pyset) :
  getcwd P1 = getcwd P2 ->
  isfile P1 = isfile P2 ->
  read_bytes P1 = read_bytes P2 ->
  Permutation (allpaths P1 path) (allpaths P2 path) ->
  get_dir_hashes P1 path E = get_dir_hashes P2 path E.
Proof.
  intros Hcwd Hfile Hbytes Hperm.
  unfold get_dir_hashes, hash_items, sha256, abs_to_rel.
  rewrite (sorted_permutation _ _ Hperm), Hcwd, Hfile, Hbytes.
  reflexivity.
Qed.

Lemma get_dir_hashes_deterministic_witness :
  get_dir_hashes Reference.platform "/pkg" (Some ["x"])
  = get_dir_hashes Reference.platform' "/pkg" (Some ["x"]).
Proof.
  apply (get_dir_hashes_deterministic Reference.platform Reference.platform').
  - reflexivity.
  - reflexivity.
  - reflexivity.
  - apply sorted_eq_permutation. vm_compute. reflexivity.
Defined.

Lemma reference_readable :
  readable Reference.platform "/pkg" Reference.content.
Proof.
  intros p Hin Hfile. simpl in Hin.
  repeat (destruct Hin as [<-|Hin]; [split; [discriminate|]; try reflexivity;
                                     vm_compute in Hfile; discriminate|]).
  contradiction.
Qed.



(** ** Temporary extraction *)

Section Traces.









Lemma under_refl (d : string) : under d d = true.
Proof. unfold under. rewrite String.eqb_refl. reflexivity. Qed.


Lemma isdir_purge (d : string) (w : World) : isdir (purge d w) d = false.
Proof.
  unfold isdir, purge. simpl.
  destruct (existsb (String.eqb d) (filter (fun p => negb (under d p)) (dirs w))) eqn:E;
    [|reflexivity].
  apply existsb_eqb_In, filter_In in E. destruct E as [_ E].
  rewrite under_refl in E. discriminate.
Qed.

Lemma isdir_mkdir (d : string) (w : World) : isdir (mkdir d w) d = true.
Proof. unfold isdir, mkdir. simpl. rewrite String.eqb_refl. reflexivity. Qed.

End Traces.

Section Scope.

Variable A : Type.
Variable L : Fallible.Library.
Variable path : string.
Variable body : string * list string -> World -> result A * World.



End Scope.






(** Where the three calls return, the scopes of [Fallible] are the scopes of
    the first model. *)
Lemma returning_tempextract_enter (P : Platform) (path d : string)
      (s : World * list event) :
  Fallible.tempextract_enter (Fallible.returning P) path d s
  = tempextract_enter P path d s.
Proof.
  unfold Fallible.tempextract_enter, tempextract_enter.
  unfold pbind at 1. unfold lift_result at 1.
  rewrite returning_archive_type. reflexivity.
Qed.

Lemma returning_tempextract (A : Type) (P : Platform) (path : string)
      (body : string * list string -> World -> result A * World)
      (s : World * list event) :
  Fallible.tempextract (Fallible.returning P) path body s = tempextract P path body s.
Proof.
  unfold Fallible.tempextract, tempextract.
  change (Fallible.base (Fallible.returning P)) with P.
  change (Fallible.shutil_rmtree (Fallible.returning P)) with rmtree.
  destruct (mkdtemp P (fst s)) as [d|e]; [|reflexivity].
  unfold try_finally, pbind at 1 2 3 6 7 8. unfold emit at 1 4.
  unfold on_world at 1 4. simpl fst. simpl snd.
  rewrite returning_tempextract_enter. reflexivity.
Qed.

Lemma returning_tempdir (A : Type) (P : Platform)
      (body : string -> World -> result A * World) (s : World * list event) :
  Fallible.tempdir (Fallible.returning P) body s = tempdir P body s.
Proof. reflexivity. Qed.

Section Outcomes.

Variable A : Type.
Variable P : Platform.
Variable path : string.
Variable body : string * list string -> World -> result A * World.

(** A run whose [try] block raises before it touches the disk again. *)
Lemma tempextract_enter_raises (w : World) (d : string) (e : exn) :
  mkdtemp P w = Ok d ->
  (forall s, tempextract_enter P path d s = (Raise e, s)) ->
  tempextract P path body (w, [])
  = (Raise e, (purge d (mkdir d w), [EvMkdtemp d; EvRmtree d])).
Proof.
  intros Hmk Henter. unfold tempextract. simpl fst. rewrite Hmk.
  unfold try_finally, pbind, emit, on_world. simpl.
  rewrite Henter. simpl.
  unfold rmtree. rewrite isdir_mkdir. reflexivity.
Qed.

Lemma check_members_spec (d : string) (ms : list Member) :
  check_members P d ms =
  if forallb (fun m => is_within_directory P d (posixpath.join d (name m))) ms
  then Ok tt
  else Raise (Exception "Attempted Path Traversal in Tar File").
Proof.
  induction ms as [|m ms IH]; simpl; [reflexivity|].
  destruct (is_within_directory P d (posixpath.join d (name m))); simpl; auto.
Qed.

(** The tar branch does reject, before any extraction, an archive one of
    whose members fails [is_within_directory]. *)
Lemma tempextract_tar_rejects (w : World) (d : string) (ms : list Member) :
  mkdtemp P w = Ok d ->
  is_tarfile P path = true ->
  tarfile_open P path = Ok ms ->
  forallb (fun m => is_within_directory P d (posixpath.join d (name m))) ms = false ->
  tempextract P path body (w, [])
  = (Raise (Exception "Attempted Path Traversal in Tar File"),
     (purge d (mkdir d w), [EvMkdtemp d; EvRmtree d])).
Proof.
  intros Hmk Htar Hopen Hbad. apply tempextract_enter_raises; [assumption|].
  intros s. unfold tempextract_enter, archive_type. rewrite Htar. simpl.
  unfold safe_extract, pbind, lift_result. rewrite Hopen.
  rewrite check_members_spec, Hbad. reflexivity.
Qed.

(** The zip branch hands every archive to [extractall], whatever its member
    names are: it has no check of its own. *)
Lemma tempextract_zip_unchecked (w : World) (d : string) (ms : list Member) :
  mkdtemp P w = Ok d ->
  is_tarfile P path = false ->
  is_zipfile P path = true ->
  zipfile_open P path = Ok ms ->
  In (EvExtractall "zip" d) (snd (snd (tempextract P path body (w, [])))).
Proof.
  intros Hmk Htar Hzip Hopen. unfold tempextract. simpl fst. rewrite Hmk.
  unfold try_finally, tempextract_enter, archive_type. rewrite Htar, Hzip.
  unfold pbind, emit, on_world, lift_result, pret. simpl. rewrite Hopen.
  destruct (zip_extractall P ms d (mkdir d w)) as [[[]|e] w1]; simpl.
  - destruct (body (d, map name ms) w1) as [r w2]. simpl.
    destruct (rmtree d w2) as [[[]|e] w3]; simpl; auto.
  - destruct (rmtree d w1) as [[[]|e'] w3]; simpl; auto.
Qed.

End Outcomes.

(** C3, as the code has it.  For a path that is neither a tar nor a zip
    archive, [tempextract] raises [TypeError] ("... is not an archive file");
    by then [mkdtemp] has already allocated the temporary directory, and the
    [finally] clause removes it; nothing is extracted and the caller's code
    does not run. *)
Theorem tempextract_not_archive (A : Type) (P : Platform) (path : string)
        (body : string * list string -> World -> result A * World)
        (w : World) (d : string) :
  archive_type P path = None ->
  mkdtemp P w = Ok d ->
  tempextract P path body (w, [])
  = (Raise (TypeError (path ++ " is not an archive file")),
     (purge d (mkdir d w), [EvMkdtemp d; EvRmtree d])).
Proof.
  intros Hnone Hmk. apply tempextract_enter_raises; [assumption|].
  intros s. unfold tempextract_enter. rewrite Hnone. reflexivity.
Qed.

Lemma tempextract_not_archive_witness :
  tempextract Reference.platform "/in/notes.txt" Reference.count_names
    (Reference.empty_disk, [])
  = (Raise (TypeError "/in/notes.txt is not an archive file"),
     (Reference.empty_disk, [EvMkdtemp "/tmp/tmpabc"; EvRmtree "/tmp/tmpabc"])).
Proof.
  apply (tempextract_not_archive nat Reference.platform "/in/notes.txt"
           Reference.count_names Reference.empty_disk "/tmp/tmpabc").
  - reflexivity.
  - reflexivity.
Defined.

(** C3, as the claim states it, fails: on a path that is no archive the
    temporary directory is allocated before the error is raised. *)
Lemma not_archive_still_allocates :
  archive_type Reference.platform "/in/notes.txt" = None
  /\ hd_error (snd (snd (tempextract Reference.platform "/in/notes.txt"
                           Reference.count_names (Reference.empty_disk, []))))
     = Some (EvMkdtemp "/tmp/tmpabc")
  /\ fst (tempextract Reference.platform "/in/notes.txt"
            Reference.count_names (Reference.empty_disk, []))
     = Raise (TypeError "/in/notes.txt is not an archive file").
Proof. split; [|split]; vm_compute; reflexivity. Qed.

(** C1 on the code.  A tar archive whose member is named [../tmpabcdef/x],
    extracted under the root [/tmp/tmpabc], passes the check of
    [safe_extract] (the common prefix is taken character by character), is
    extracted, and leaves a file outside the root after the scope has exited;
    a zip archive with the member [../../etc/passwd] is handed to
    [extractall] without any check and no error is raised. *)
Theorem tempextract_traversal_escapes :
  check_members Reference.platform "/tmp/tmpabc"
    [{| name := "../tmpabcdef/x"; payload := "X" |}] = Ok tt
  /\ tempextract Reference.platform "/in/sibling.tar" Reference.count_names
       (Reference.empty_disk, [])
     = (Ok 1,
        ({| files := [("/tmp/tmpabcdef/x", "X")]; dirs := ["/tmp"] |},
         [EvMkdtemp "/tmp/tmpabc"; EvExtractall "tar" "/tmp/tmpabc";
          EvYield "/tmp/tmpabc"; EvRmtree "/tmp/tmpabc"]))
  /\ under "/tmp/tmpabc" "/tmp/tmpabcdef/x" = false
  /\ tempextract Reference.platform "/in/evil.zip" Reference.count_names
       (Reference.empty_disk, [])
     = (Ok 1,
        (Reference.empty_disk,
         [EvMkdtemp "/tmp/tmpabc"; EvExtractall "zip" "/tmp/tmpabc";
          EvYield "/tmp/tmpabc"; EvRmtree "/tmp/tmpabc"])).
Proof. split; [|split; [|split]]; vm_compute; reflexivity. Qed.

(** * Further properties of the code *)

(** ** [bool_from_str] *)

Section BoolFromStr.

Lemma lower_char_letter (c l : ascii) :
  In l (list_ascii_of_string "truefals") ->
  lower_char c = l <-> c = l \/ c = upper_char l.
Proof.
  intros Hl. simpl in Hl.
  repeat (destruct Hl as [<-|Hl]; [|]); try contradiction;
    destruct c as [[] [] [] [] [] [] [] []]; vm_compute;
    (split; [intros H; first [discriminate H | auto]
            | intros [H|H]; first [discriminate H | reflexivity]]).
Qed.

Lemma str_lower_casings (w s : string) :
  Forall (fun l => In l (list_ascii_of_string "truefals")) (list_ascii_of_string w) ->
  str_lower s = w <-> In s (casings w).
Proof.
  revert s. induction w as [|l w IH]; intros s Hw.
  - destruct s; simpl; split; intros H; try discriminate; auto.
    destruct H as [H|[]]. discriminate.
  - inversion Hw as [|? ? Hl Hw']; subst. simpl. rewrite in_flat_map. split.
    + destruct s as [|c s]; simpl; [discriminate|]. intros [= Hc Hs].
      exists s. split; [apply IH; assumption|].
      apply (lower_char_letter c l Hl) in Hc. simpl.
      destruct Hc as [->| ->]; auto.
    + intros [t [Ht Hs]]. apply IH in Ht; [|assumption].
      unfold str_lower in *.
      destruct Hs as [<-|[<-|[]]]; simpl; rewrite Ht; f_equal;
        apply (lower_char_letter _ l Hl); auto.
Qed.

End BoolFromStr.

(** X1: [bool_from_str] answers [True] exactly on the 16 spellings of "true"
    in ASCII letters of either case, [False] exactly on the 32 spellings of
    "false", and raises [ValueError] on every other string (surrounding blanks,
    "yes", "1" and the empty string included). *)
Theorem bool_from_str_accepts (s : string) :
  (bool_from_str s = Ok true <-> In s (casings "true"))
  /\ (bool_from_str s = Ok false <-> In s (casings "false"))
  /\ (bool_from_str s = Raise (ValueError "Expected a string like 'true' or 'false'")
      <-> ~ In s (casings "true" ++ casings "false")).
Proof.
  assert (Ht : str_lower s = "true" <-> In s (casings "true")).
  { apply str_lower_casings. simpl.
    repeat (apply Forall_cons; [simpl; tauto|]). apply Forall_nil. }
  assert (Hf : str_lower s = "false" <-> In s (casings "false")).
  { apply str_lower_casings. simpl.
    repeat (apply Forall_cons; [simpl; tauto|]). apply Forall_nil. }
  rewrite in_app_iff.
  remember (casings "true") as ct eqn:Ect.
  remember (casings "false") as cf eqn:Ecf.
  clear Ect Ecf. unfold bool_from_str.
  destruct (String.eqb_spec (str_lower s) "true") as [E1|E1];
    [|destruct (String.eqb_spec (str_lower s) "false") as [E2|E2]].
  - assert (Hnf : ~ In s cf).
    { intros H. apply Hf in H. rewrite E1 in H. discriminate. }
    apply Ht in E1.
    split; [|split]; split; intros H; try discriminate; try reflexivity;
      try assumption; try contradiction.
    exfalso. apply H. left. assumption.
  - assert (Hnt : ~ In s ct). { intros H. apply Ht in H. contradiction. }
    apply Hf in E2.
    split; [|split]; split; intros H; try discriminate; try reflexivity;
      try assumption; try contradiction.
    exfalso. apply H. right. assumption.
  - assert (Hnt : ~ In s ct). { intros H. apply Ht in H. contradiction. }
    assert (Hnf : ~ In s cf). { intros H. apply Hf in H. contradiction. }
    split; [|split]; split; intros H; try discriminate; try reflexivity;
      try contradiction.
    intros [H'|H']; contradiction.
Qed.

(** ** File-type guessing *)

Section FileType.

Lemma prefix_app (n post : string) : String.prefix n (n ++ post) = true.
Proof.
  induction n as [|a n IH]; simpl.
  - destruct post; reflexivity.
  - destruct (ascii_dec a a); [assumption|congruence].
Qed.

Lemma prefix_split (n h : string) :
  String.prefix n h = true -> exists post, h = (n ++ post)%string.
Proof.
  revert h. induction n as [|a n IH]; intros h H.
  - exists h. reflexivity.
  - destruct h as [|b h]; simpl in H; [discriminate|].
    destruct (ascii_dec a b) as [->|]; [|discriminate].
    destruct (IH h H) as [post ->]. exists post. reflexivity.
Qed.

Lemma bytes_in_unfold (n h : string) :
  bytes_in n h =
  String.prefix n h
  || match h with
     | EmptyString => false
     | String _ h' => bytes_in n h'
     end.
Proof. destruct h; reflexivity. Qed.

Lemma bytes_in_iff (n h : string) :
  bytes_in n h = true <-> exists pre post, h = (pre ++ n ++ post)%string.
Proof.
  split.
  - induction h as [|b h IH]; intros H.
    + destruct n; [|discriminate]. exists "", "". reflexivity.
    + change (String.prefix n (String b h) || bytes_in n h = true) in H.
      apply orb_prop in H. destruct H as [H|H].
      * apply prefix_split in H. destruct H as [post H].
        exists "", post. assumption.
      * destruct (IH H) as [pre [post ->]].
        exists (String b pre), post. reflexivity.
  - intros [pre [post ->]]. induction pre as [|b pre IH].
    + change ("" ++ n ++ post)%string with (n ++ post)%string.
      rewrite bytes_in_unfold, prefix_app. reflexivity.
    + change (String b pre ++ n ++ post)%string
        with (String b (pre ++ n ++ post)).
      rewrite bytes_in_unfold, IH. apply orb_true_r.
Qed.

Lemma bytes_in_embed (n m pre post : string) :
  bytes_in n m = true -> bytes_in n (pre ++ m ++ post) = true.
Proof.
  intros H. apply bytes_in_iff in H. destruct H as [a [b ->]].
  apply bytes_in_iff. exists (pre ++ a)%string, (b ++ post)%string.
  rewrite !string_app_assoc. reflexivity.
Qed.

Lemma bytes_in_trans (a b h : string) :
  bytes_in a b = true -> bytes_in b h = true -> bytes_in a h = true.
Proof.
  intros Hab Hbh. apply bytes_in_iff in Hbh. destruct Hbh as [pre [post ->]].
  apply bytes_in_embed. assumption.
Qed.

End FileType.

(** X2: text around a description never takes a classification away: when
    [is_source] (or [is_binary]) holds of a magic string it holds of every
    string that contains it. *)
Theorem is_source_is_binary_monotone (pre m post : string) :
  (is_source m = true -> is_source (pre ++ m ++ post) = true)
  /\ (is_binary m = true -> is_binary (pre ++ m ++ post) = true).
Proof.
  assert (Hin : forall n, bytes_in n m = true ->
                          bytes_in n (pre ++ m ++ post) = true).
  { intros n. apply bytes_in_embed. }
  unfold is_source, is_binary. split; intros H;
    repeat rewrite orb_true_iff in H; repeat rewrite andb_true_iff in H;
    repeat rewrite orb_true_iff; repeat rewrite andb_true_iff;
    intuition auto.
Qed.

Lemma is_source_is_binary_monotone_witness :
  is_source ("foo.py: " ++ "Python script, ASCII text" ++ ", with CRLF") = true.
Proof.
  apply (proj1 (is_source_is_binary_monotone "foo.py: " "Python script, ASCII text"
                  ", with CRLF")).
  reflexivity.
Defined.

(** X3: the order of the tests in [spdx_filetype] decides the overlaps.  A
    description with " text executable" (a script) also passes [is_binary] but
    is reported as SOURCE; one with " ar archive" (a static library) contains
    "archive" but is never reported as ARCHIVE; ARCHIVE is reported only when
    neither [is_source] nor [is_binary] holds. *)
Theorem spdx_filetype_overlaps (magic_from_file : string -> result string)
        (filename m : string) :
  magic_from_file filename = Ok m ->
  (bytes_in " text executable" m = true ->
   is_binary m = true /\ spdx_filetype magic_from_file filename = Ok "SOURCE")
  /\ (bytes_in " ar archive" m = true ->
      bytes_in "archive" m = true
      /\ spdx_filetype magic_from_file filename <> Ok "ARCHIVE")
  /\ (spdx_filetype magic_from_file filename = Ok "ARCHIVE" ->
      is_source m = false /\ is_binary m = false /\ bytes_in "archive" m = true).
Proof.
  intros Hm. unfold spdx_filetype. rewrite Hm. simpl. split; [|split].
  - intros H.
    assert (Hb : bytes_in " executable" m = true).
    { apply (bytes_in_trans _ " text executable"); [reflexivity|assumption]. }
    split.
    + unfold is_binary. rewrite Hb. reflexivity.
    + assert (Hs : is_source m = true).
      { unfold is_source. rewrite H. rewrite !orb_true_r. reflexivity. }
      rewrite Hs. reflexivity.
  - intros H. split.
    + apply (bytes_in_trans _ " ar archive"); [reflexivity|assumption].
    + assert (Hb : is_binary m = true).
      { unfold is_binary. rewrite H. rewrite !orb_true_r. reflexivity. }
      rewrite Hb. destruct (is_source m); discriminate.
  - destruct (is_source m); [discriminate|].
    destruct (is_binary m); [discriminate|].
    destruct (bytes_in "archive" m); [auto|discriminate].
Qed.

Lemma spdx_filetype_overlaps_witness :
  spdx_filetype (fun _ => Ok "Python script, ASCII text executable") "setup.py"
  = Ok "SOURCE".
Proof.
  apply (proj1 (spdx_filetype_overlaps
                  (fun _ => Ok "Python script, ASCII text executable")
                  "setup.py" "Python script, ASCII text executable" eq_refl)).
  reflexivity.
Defined.

(** ** Package names and namespace suffixes *)

Section Names.

Lemma chars_app (a b : string) :
  list_ascii_of_string (a ++ b) = list_ascii_of_string a ++ list_ascii_of_string b.
Proof. induction a; simpl; congruence. Qed.

Lemma rfind_absent (c : ascii) (s : string) :
  ~ In c (list_ascii_of_string s) -> rfind c s = None.
Proof.
  induction s as [|a s IH]; simpl; intros H; [reflexivity|].
  rewrite IH by tauto.
  destruct (Ascii.eqb_spec a c); [|reflexivity]. exfalso. apply H. auto.
Qed.

Lemma rfind_last (c : ascii) (a b : string) :
  ~ In c (list_ascii_of_string b) ->
  rfind c (a ++ String c b) = Some (String.length a).
Proof.
  intros H. induction a as [|x a IH]; simpl.
  - rewrite (rfind_absent c b H), Ascii.eqb_refl. reflexivity.
  - rewrite IH. reflexivity.
Qed.

Lemma substring_0_app (a b : string) :
  substring 0 (String.length a) (a ++ b) = a.
Proof.
  induction a as [|x a IH]; simpl.
  - destruct b; reflexivity.
  - rewrite IH. reflexivity.
Qed.

Lemma str_from_app (a b : string) : str_from (String.length a) (a ++ b) = b.
Proof. induction a; simpl; auto. Qed.

Lemma str_endswith_app (a suffix : string) :
  str_endswith suffix (a ++ suffix) = true.
Proof.
  unfold str_endswith. rewrite string_app_length.
  replace (String.length a + String.length suffix - String.length suffix)
    with (String.length a) by lia.
  rewrite str_from_app, String.eqb_refl, andb_true_r.
  apply Nat.leb_le. lia.
Qed.

Lemma prefix_refl (s : string) : String.prefix s s = true.
Proof.
  induction s as [|a s IH]; simpl; [reflexivity|].
  destruct (ascii_dec a a); [assumption|congruence].
Qed.

Lemma prefix_substring (n : nat) (s : string) :
  String.prefix (substring 0 n s) s = true.
Proof.
  revert s. induction n as [|n IH]; intros [|a s]; simpl; try reflexivity.
  destruct (ascii_dec a a); [apply IH|congruence].
Qed.

Lemma prefix_trans (a b c : string) :
  String.prefix a b = true -> String.prefix b c = true -> String.prefix a c = true.
Proof.
  intros Hab Hbc. apply prefix_split in Hab, Hbc.
  destruct Hab as [p ->]. destruct Hbc as [q ->].
  rewrite string_app_assoc. apply prefix_app.
Qed.

Lemma splitext_prefix (p : string) : String.prefix (fst (splitext p)) p = true.
Proof.
  unfold splitext.
  destruct (rfind_index "/" p <? rfind_index "." p)%Z; [|apply prefix_refl].
  destruct (existsb _ _); simpl; [|apply prefix_refl].
  unfold pystr.slice. apply prefix_substring.
Qed.

(** A name without directory part that does not begin with a dot is split at
    the dot before a dot-free extension. *)
Lemma splitext_simple (c : ascii) (base' ext : string) :
  c <> "."%char ->
  ~ In "/"%char (list_ascii_of_string (String c base')) ->
  ~ In "/"%char (list_ascii_of_string ext) ->
  ~ In "."%char (list_ascii_of_string ext) ->
  splitext (String c base' ++ String "." ext) = (String c base', String "." ext).
Proof.
  intros Hc Hbase Hext Hdot. set (base := String c base').
  unfold splitext, rfind_index.
  rewrite (rfind_absent "/" (base ++ String "." ext)).
  2:{ rewrite chars_app. intros H. apply in_app_or in H.
      destruct H as [H|H]; [tauto|].
      simpl in H. destruct H as [H|H]; [discriminate|tauto]. }
  rewrite (rfind_last "." base ext Hdot).
  replace (-1 <? Z.of_nat (String.length base))%Z with true
    by (symmetry; apply Z.ltb_lt; lia).
  rewrite Nat2Z.id. change (Z.to_nat (-1 + 1)) with 0.
  unfold pystr.slice. rewrite Nat.sub_0_r, substring_0_app, str_from_app.
  unfold base at 1. simpl existsb.
  destruct (Ascii.eqb_spec c "."); [contradiction|reflexivity].
Qed.

Lemma string_app_inv (a a' b b' : string) :
  String.length b = String.length b' ->
  (a ++ b = a' ++ b')%string -> a = a' /\ b = b'.
Proof.
  intros Hlen. revert a'.
  induction a as [|x a IH]; intros [|y a'] Heq; simpl in *.
  - auto.
  - apply (f_equal String.length) in Heq. simpl in Heq.
    rewrite string_app_length in Heq. lia.
  - apply (f_equal String.length) in Heq. simpl in Heq.
    rewrite string_app_length in Heq. lia.
  - injection Heq as -> Heq. destruct (IH a' Heq) as [-> ->]. auto.
Qed.

End Names.

(** X4: [package_friendly_name] only cuts at the right end: its result is a
    prefix of the name it is given. *)
Theorem package_friendly_name_prefix (p : string) :
  String.prefix (package_friendly_name p) p = true.
Proof.
  unfold package_friendly_name.
  destruct (str_endswith ".tar" (fst (splitext p))).
  - eapply prefix_trans; apply splitext_prefix.
  - apply splitext_prefix.
Qed.

(** X5: for a file name without directory part that does not begin with a
    dot, and a dot-free extension, [package_friendly_name] strips [.tar.ext]
    as a whole, and strips a single [.ext] when what is left does not end in
    [.tar]. *)
Theorem package_friendly_name_extensions (c : ascii) (base' ext : string) :
  c <> "."%char ->
  ~ In "/"%char (list_ascii_of_string (String c base')) ->
  ~ In "/"%char (list_ascii_of_string ext) ->
  ~ In "."%char (list_ascii_of_string ext) ->
  package_friendly_name (String c base' ++ ".tar." ++ ext) = String c base'
  /\ (str_endswith ".tar" (String c base') = false ->
      package_friendly_name (String c base' ++ "." ++ ext) = String c base').
Proof.
  intros Hc Hbase Hext Hdot. split.
  - unfold package_friendly_name.
    change (String c base' ++ ".tar." ++ ext)%string
      with (String c (base' ++ ".tar." ++ ext)).
    replace (String c (base' ++ ".tar." ++ ext))
      with (String c (base' ++ ".tar") ++ String "." ext)%string.
    2:{ simpl. rewrite string_app_assoc. reflexivity. }
    rewrite (splitext_simple c (base' ++ ".tar") ext); try assumption.
    2:{ change (String c (base' ++ ".tar")) with (String c base' ++ ".tar")%string.
        rewrite chars_app. intros H. apply in_app_or in H.
        destruct H as [H|H]; [tauto|]. simpl in H.
        repeat (destruct H as [H|H]; [discriminate|]). assumption. }
    simpl fst.
    change (String c (base' ++ ".tar")) with (String c base' ++ ".tar")%string.
    rewrite str_endswith_app.
    change (String c base' ++ ".tar")%string
      with (String c base' ++ String "." "tar")%string.
    rewrite (splitext_simple c base' "tar"); try assumption.
    + reflexivity.
    + simpl. intros H. repeat (destruct H as [H|H]; [discriminate|]). assumption.
    + simpl. intros H. repeat (destruct H as [H|H]; [discriminate|]). assumption.
  - intros Hnotar. unfold package_friendly_name.
    change (String c base' ++ "." ++ ext)%string
      with (String c base' ++ String "." ext)%string.
    rewrite (splitext_simple c base' ext); try assumption.
    simpl fst. rewrite Hnotar. reflexivity.
Qed.

Lemma package_friendly_name_extensions_witness :
  package_friendly_name ("dosocs2-0.16.1" ++ ".tar." ++ "gz") = "dosocs2-0.16.1".
Proof.
  apply (proj1 (package_friendly_name_extensions "d" "osocs2-0.16.1" "gz"
                  ltac:(discriminate)
                  ltac:(vm_compute; intuition discriminate)
                  ltac:(vm_compute; intuition discriminate)
                  ltac:(vm_compute; intuition discriminate))).
Defined.

(** X6: [friendly_namespace_suffix] keeps its two inputs apart: a suffix
    begins with a slash, is 2 characters longer than document name and UUID
    together, and two suffixes built with UUID strings of the same length are
    equal only if the document names and the UUIDs are. *)
Theorem friendly_namespace_suffix_injective (u1 u2 d1 d2 : string) :
  String.length u1 = String.length u2 ->
  String.length (friendly_namespace_suffix u1 d1)
  = String.length d1 + String.length u1 + 2
  /\ String.prefix "/" (friendly_namespace_suffix u1 d1) = true
  /\ (friendly_namespace_suffix u1 d1 = friendly_namespace_suffix u2 d2 ->
      d1 = d2 /\ u1 = u2).
Proof.
  intros Hlen. unfold friendly_namespace_suffix. split; [|split].
  - simpl. rewrite string_app_length. simpl. lia.
  - apply (prefix_app "/").
  - intros H. injection H as H.
    change (d1 ++ "-" ++ u1)%string with (d1 ++ String "-" u1)%string in H.
    change (d2 ++ "-" ++ u2)%string with (d2 ++ String "-" u2)%string in H.
    apply string_app_inv in H; [|simpl; congruence].
    destruct H as [-> H]. injection H as ->. auto.
Qed.

Lemma friendly_namespace_suffix_injective_witness :
  String.length (friendly_namespace_suffix "aaaaaaaa-1111-4111-8111-111111111111" "doc")
  = 3 + 36 + 2.
Proof.
  apply (proj1 (friendly_namespace_suffix_injective
                  "aaaaaaaa-1111-4111-8111-111111111111"
                  "bbbbbbbb-1111-4111-8111-111111111111" "doc" "doc" eq_refl)).
Defined.

(** ** More on identifiers *)

Section MoreIdentifiers.

Lemma split_nonempty (sep : ascii) (s : string) : pystr.split sep s <> [].
Proof.
  induction s as [|c s IH]; simpl; [discriminate|].
  destruct (Ascii.eqb c sep); [discriminate|].
  destruct (pystr.split sep s); [contradiction|discriminate].
Qed.

Lemma split_app (sep : ascii) (a b : string) :
  pystr.split sep (a ++ String sep b) = pystr.split sep a ++ pystr.split sep b.
Proof.
  induction a as [|c a IH]; simpl.
  - rewrite Ascii.eqb_refl. reflexivity.
  - destruct (Ascii.eqb c sep); [rewrite IH; reflexivity|].
    rewrite IH. pose proof (split_nonempty sep a) as Hne.
    destruct (pystr.split sep a); [contradiction|reflexivity].
Qed.

Lemma split_no_sep (sep : ascii) (s : string) :
  ~ In sep (list_ascii_of_string s) -> pystr.split sep s = [s].
Proof.
  induction s as [|c s IH]; simpl; intros H; [reflexivity|].
  destruct (Ascii.eqb_spec c sep); [exfalso; apply H; auto|].
  rewrite IH by tauto. reflexivity.
Qed.

Lemma last_app_nonempty {A} (l1 l2 : list A) (d : A) :
  l2 <> [] -> last (l1 ++ l2) d = last l2 d.
Proof.
  intros H. induction l1 as [|x l1 IH]; [reflexivity|].
  simpl. destruct (l1 ++ l2) eqn:E.
  - apply app_eq_nil in E. tauto.
  - assumption.
Qed.

Lemma basename_app (a b : string) :
  posixpath.basename (a ++ "/" ++ b) = posixpath.basename b.
Proof.
  unfold posixpath.basename.
  change (a ++ "/" ++ b)%string with (a ++ String "/" b)%string.
  rewrite split_app. apply last_app_nonempty, split_nonempty.
Qed.

Lemma basename_no_slash (s : string) :
  ~ In "/"%char (list_ascii_of_string s) -> posixpath.basename s = s.
Proof.
  intros H. unfold posixpath.basename. rewrite split_no_sep by assumption.
  reflexivity.
Qed.

Lemma map_chars_legal (s : string) :
  Forall (fun c => is_alnum c = true \/ c = "_"%char) (list_ascii_of_string s) ->
  map_chars strip_illegal s = s.
Proof.
  induction s as [|c s IH]; simpl; intros H; [reflexivity|].
  inversion H as [|? ? Hc Hs]; subst. rewrite IH by assumption. f_equal.
  unfold strip_illegal. destruct Hc as [-> | ->]; reflexivity.
Qed.

Lemma substring_0_all (n : nat) (s : string) :
  String.length s <= n -> substring 0 n s = s.
Proof.
  revert s. induction n as [|n IH]; intros [|c s] H; simpl in *;
    try reflexivity; try lia.
  rewrite IH by lia. reflexivity.
Qed.

Lemma substring_length_le (a n : nat) (s : string) :
  String.length (substring a n s) <= n.
Proof.
  revert s. induction a as [|a IH]; intros s.
  - rewrite substring_0_length. apply Nat.le_min_l.
  - destruct s as [|c s]; simpl.
    + destruct n; simpl; lia.
    + apply IH.
Qed.

Lemma file_name_for_id_legal (f : string) :
  Forall (fun c => is_alnum c = true \/ c = "_"%char)
         (list_ascii_of_string (file_name_for_id f)).
Proof.
  unfold file_name_for_id, pystr.slice.
  apply substring_0_Forall, map_chars_Forall.
Qed.

Lemma string_app_inv_head (a b c : string) :
  (a ++ b = a ++ c)%string -> b = c.
Proof. induction a; simpl; intros H; [assumption|]. injection H as H. auto. Qed.

End MoreIdentifiers.

(** X7: [file_name_for_id] looks at the last path component only, and
    sanitizing a sanitized name changes nothing. *)
Theorem file_name_for_id_idempotent (dir f : string) :
  file_name_for_id (file_name_for_id f) = file_name_for_id f
  /\ file_name_for_id (dir ++ "/" ++ f) = file_name_for_id f.
Proof.
  split.
  - pose proof (file_name_for_id_legal f) as Hlegal.
    assert (Hlen : String.length (file_name_for_id f) <= 20).
    { unfold file_name_for_id, pystr.slice. apply substring_length_le. }
    remember (file_name_for_id f) as g eqn:Eg. clear Eg.
    unfold file_name_for_id. rewrite basename_no_slash.
    + rewrite (map_chars_legal g Hlegal). unfold pystr.slice.
      apply substring_0_all. assumption.
    + intros Hin. rewrite Forall_forall in Hlegal.
      destruct (Hlegal _ Hin) as [H|H]; discriminate.
  - unfold file_name_for_id. rewrite basename_app. reflexivity.
Qed.

(** X8: with a file name and a hash given, the identifier depends on the
    random UUID through its first 8 characters only: two calls return the
    same identifier exactly when their UUIDs agree there. *)
Theorem gen_id_string_same_iff (u1 u2 prefix f h : string) :
  f <> "" ->
  gen_id_string u1 prefix (Some f) (Some h) = gen_id_string u2 prefix (Some f) (Some h)
  <-> pystr.slice 0 8 u1 = pystr.slice 0 8 u2.
Proof.
  intros Hf. rewrite !gen_id_string_pieces.
  assert (Heff : forall u, effective_name u (Some f) = f).
  { intros u. simpl. destruct (String.eqb_spec f ""); [contradiction|reflexivity]. }
  rewrite !Heff. simpl sha256part. split.
  - apply string_app_inv_head.
  - intros ->. reflexivity.
Qed.

Lemma gen_id_string_same_iff_witness :
  gen_id_string "aaaaaaaa-1111-4111-8111-111111111111" "file" (Some "a.c") (Some "beef")
  = gen_id_string "aaaaaaaa-2222-4222-9222-222222222222" "file" (Some "a.c") (Some "beef").
Proof.
  apply (proj2 (gen_id_string_same_iff
                  "aaaaaaaa-1111-4111-8111-111111111111"
                  "aaaaaaaa-2222-4222-9222-222222222222"
                  "file" "a.c" "beef" ltac:(discriminate))).
  reflexivity.
Defined.

(** X9: an identifier is at most 43 characters longer than its prefix,
    however long the file name, the hash and the UUID string are. *)
Theorem gen_id_string_length (u prefix : string) (file_name sha256 : option string) :
  String.length (gen_id_string u prefix file_name sha256)
  <= String.length prefix + 43.
Proof.
  rewrite gen_id_string_pieces.
  assert (Hfrag : String.length (file_name_for_id (effective_name u file_name)) <= 20).
  { unfold file_name_for_id, pystr.slice. apply substring_length_le. }
  assert (Hpart : String.length (sha256part u sha256) <= 4).
  { destruct sha256; simpl; unfold pystr.slice; apply substring_length_le. }
  assert (Hrand : String.length (pystr.slice 0 8 u) <= 8).
  { unfold pystr.slice. apply substring_length_le. }
  repeat (rewrite string_app_length; simpl String.length).
  repeat (rewrite string_app_length; simpl String.length).
  lia.
Qed.

(** ** The shape of digests *)

Section DigestShape.

Local Open Scope Z_scope.

Lemma hex_digit_is_hex (d : Z) : 0 <= d < 16 -> is_hex (hashlib.hex_digit d) = true.
Proof.
  intros Hd.
  assert (Hin : In d [0; 1; 2; 3; 4; 5; 6; 7; 8; 9; 10; 11; 12; 13; 14; 15])
    by (simpl; lia).
  simpl in Hin.
  repeat (destruct Hin as [<-|Hin]; [reflexivity|]). contradiction.
Qed.

Lemma string_of_list_length (l : list ascii) :
  String.length (string_of_list_ascii l) = List.length l.
Proof. induction l; simpl; congruence. Qed.

Lemma string_app_nil_r (s : string) : (s ++ "")%string = s.
Proof. induction s; simpl; congruence. Qed.

Lemma concat_empty_cons (x : string) (l : list string) :
  String.concat "" (x :: l) = (x ++ String.concat "" l)%string.
Proof.
  destruct l; simpl; [symmetry; apply string_app_nil_r | reflexivity].
Qed.

Lemma hex_word_shape (w : Z) :
  String.length (hashlib.hex_word w) = 8%nat
  /\ forallb is_hex (list_ascii_of_string (hashlib.hex_word w)) = true.
Proof.
  unfold hashlib.hex_word. split.
  - rewrite string_of_list_length, length_map. reflexivity.
  - rewrite list_ascii_of_string_of_list_ascii. apply forallb_forall.
    intros c Hc. apply in_map_iff in Hc. destruct Hc as [i [<- _]].
    apply hex_digit_is_hex. apply Z.mod_pos_bound. lia.
Qed.

Lemma hexdigest_shape (h : list Z) :
  String.length (hashlib.hexdigest h) = (8 * List.length h)%nat
  /\ forallb is_hex (list_ascii_of_string (hashlib.hexdigest h)) = true.
Proof.
  unfold hashlib.hexdigest. induction h as [|w h [IHlen IHhex]].
  - split; reflexivity.
  - destruct (hex_word_shape w) as [Hlen Hhex].
    assert (E : String.concat "" (map hashlib.hex_word (w :: h))
                = (hashlib.hex_word w ++ String.concat "" (map hashlib.hex_word h))%string)
      by apply concat_empty_cons.
    rewrite E. split.
    + rewrite string_app_length, Hlen, IHlen. simpl List.length. lia.
    + rewrite chars_app, forallb_app, Hhex, IHhex. reflexivity.
Qed.

Lemma sha1_compress_length (h blk : list Z) :
  List.length h = 5%nat -> List.length (hashlib.SHA1.compress h blk) = 5%nat.
Proof.
  intros H.
  destruct h as [|h0 [|h1 [|h2 [|h3 [|h4 [|h5 h]]]]]]; try discriminate.
  unfold hashlib.SHA1.compress.
  destruct (fold_left hashlib.SHA1.round _ _) as [[[[a b] c] d] e].
  reflexivity.
Qed.

Lemma sha1_digest_length (s : string) : List.length (hashlib.SHA1.digest s) = 5%nat.
Proof.
  unfold hashlib.SHA1.digest.
  assert (H0 : List.length hashlib.SHA1.H0 = 5%nat) by reflexivity.
  revert H0. generalize hashlib.SHA1.H0.
  induction (hashlib.message_blocks s) as [|blk blks IH]; intros h Hh; simpl.
  - assumption.
  - apply IH, sha1_compress_length. assumption.
Qed.

Lemma sha256_round_length (st : list Z) (kw : Z * Z) :
  List.length (hashlib.SHA256.round st kw) = List.length st.
Proof.
  destruct st as [|a [|b [|c [|d [|e [|f [|g [|h [|i st]]]]]]]]]; reflexivity.
Qed.

Lemma sha256_compress_length (h blk : list Z) :
  List.length (hashlib.SHA256.compress h blk) = List.length h.
Proof.
  unfold hashlib.SHA256.compress. rewrite length_map, length_combine.
  assert (E : forall kws st,
             List.length (fold_left hashlib.SHA256.round kws st) = List.length st).
  { induction kws as [|kw kws IH]; intros st; simpl; [reflexivity|].
    rewrite IH. apply sha256_round_length. }
  rewrite E. apply Nat.min_id.
Qed.

Lemma sha256_digest_length (s : string) :
  List.length (hashlib.SHA256.digest s) = 8%nat.
Proof.
  unfold hashlib.SHA256.digest.
  assert (H0 : List.length hashlib.SHA256.H0 = 8%nat) by reflexivity.
  revert H0. generalize hashlib.SHA256.H0.
  induction (hashlib.message_blocks s) as [|blk blks IH]; intros h Hh; simpl.
  - assumption.
  - apply IH. rewrite sha256_compress_length. assumption.
Qed.

End DigestShape.

(** X10: whatever hashes and exclusions it is given, [gen_ver_code] returns
    40 characters, all of them lower-case hexadecimal digits. *)
Theorem gen_ver_code_format (hashes : list string) (excluded_hashes : option pyset) :
  String.length (gen_ver_code hashes excluded_hashes) = 40
  /\ forallb is_hex (list_ascii_of_string (gen_ver_code hashes excluded_hashes)) = true.
Proof.
  rewrite gen_ver_code_kept. unfold hashlib.sha1_hexdigest.
  destruct (hexdigest_shape
              (hashlib.SHA1.digest
                 (pystr.encode_utf8 (pystr.join_empty (sorted (kept excluded_hashes hashes))))))
    as [Hlen Hhex].
  rewrite sha1_digest_length in Hlen. auto.
Qed.

(** X11: [sha256(filename)] raises what reading the file raises, and
    otherwise returns the digest of the bytes read: 64 lower-case hexadecimal
    digits. *)
Theorem sha256_file_digest (P : Platform) (filename : string) :
  match read_bytes P filename with
  | Ok lines =>
      sha256 P filename = Ok (hashlib.sha256_hexdigest lines)
      /\ String.length (hashlib.sha256_hexdigest lines) = 64
      /\ forallb is_hex (list_ascii_of_string (hashlib.sha256_hexdigest lines)) = true
  | Raise e => sha256 P filename = Raise e
  end.
Proof.
  unfold sha256. destruct (read_bytes P filename) as [lines|e]; simpl.
  - unfold hashlib.sha256_hexdigest.
    destruct (hexdigest_shape (hashlib.SHA256.digest lines)) as [Hlen Hhex].
    rewrite sha256_digest_length in Hlen. auto.
  - reflexivity.
Qed.

(** ** More on directory fingerprints *)

Section MoreFingerprint.

Lemma rmapM_raise {A B} (f : A -> result B) (l : list A) :
  (exists a e, In a l /\ f a = Raise e) ->
  exists a e, In a l /\ f a = Raise e /\ rmapM f l = Raise e.
Proof.
  induction l as [|x l IH]; intros [a [e [Hin Hf]]]; [contradiction|].
  simpl. destruct (f x) as [b|e'] eqn:Hx.
  - destruct Hin as [->|Hin]; [congruence|].
    destruct IH as [a' [e'' [Hin' [Hf' Hr]]]]; [exists a, e; auto|].
    exists a', e''. simpl. rewrite Hr. auto.
  - exists x, e'. auto.
Qed.

Lemma filter_none {A} (f : A -> bool) (l : list A) :
  (forall a, In a l -> f a = false) -> filter f l = [].
Proof.
  induction l as [|a l IH]; intros H; simpl; [reflexivity|].
  rewrite (H a (or_introl eq_refl)). apply IH. intros b Hb. apply H.
  right. assumption.
Qed.

Lemma dict_set_fresh (k v : string) (d : dict) :
  ~ In k (dict_keys d) -> dict_set k v d = d ++ [(k, v)].
Proof.
  induction d as [|[k' v'] d IH]; simpl; intros H; [reflexivity|].
  destruct (String.eqb_spec k k'); [exfalso; apply H; auto|].
  rewrite IH by tauto. reflexivity.
Qed.

Lemma dict_fold_fresh (g : string -> string) (l : list string) (d : dict) :
  NoDup (dict_keys d ++ l) ->
  fold_left (fun d kv => dict_set (fst kv) (snd kv) d)
            (map (fun p => (p, g p)) l) d
  = d ++ map (fun p => (p, g p)) l.
Proof.
  revert d. induction l as [|p l IH]; intros d Hnd; simpl.
  - rewrite app_nil_r. reflexivity.
  - assert (Hp : ~ In p (dict_keys d)).
    { apply NoDup_remove_2 in Hnd. intros H. apply Hnd, in_or_app. auto. }
    rewrite (dict_set_fresh p (g p) d Hp), IH.
    + rewrite <- app_assoc. reflexivity.
    + unfold dict_keys in *. rewrite map_app, <- app_assoc. exact Hnd.
Qed.

Lemma dict_of_items_nodup (g : string -> string) (l : list string) :
  NoDup l -> dict_of_items (map (fun p => (p, g p)) l) = map (fun p => (p, g p)) l.
Proof. intros H. unfold dict_of_items. rewrite dict_fold_fresh; auto. Qed.

Lemma dict_set_entries (k v : string) (d : dict) (x : string * string) :
  In x (dict_set k v d) -> In x d \/ x = (k, v).
Proof.
  induction d as [|[k' v'] d IH]; simpl.
  - intros [<-|[]]. auto.
  - destruct (String.eqb_spec k k') as [->|]; simpl.
    + intros [<-|H]; auto.
    + intros [<-|H]; auto. destruct (IH H); auto.
Qed.

Lemma dict_fold_entries (g : string -> string) (l : list string) (d : dict)
      (x : string * string) :
  In x (fold_left (fun d kv => dict_set (fst kv) (snd kv) d)
                  (map (fun p => (p, g p)) l) d) ->
  In x d \/ (In (fst x) l /\ snd x = g (fst x)).
Proof.
  revert d. induction l as [|p l IH]; intros d; simpl; [auto|].
  intros H. apply IH in H. destruct H as [H|[H1 H2]]; [|auto].
  apply dict_set_entries in H. simpl in H. destruct H as [H| ->]; auto.
Qed.

Lemma kept_ext (E E' : option pyset) (H : list string) :
  (forall h, In h H ->
             set_mem h (excluded_or_empty E) = set_mem h (excluded_or_empty E')) ->
  kept E H = kept E' H.
Proof.
  intros Hext. unfold kept. apply filter_ext_in. intros h Hh.
  rewrite (Hext h Hh). reflexivity.
Qed.

End MoreFingerprint.



(** X13: over a tree without regular files (an empty directory, or
    directories only) [get_dir_hashes] returns the SHA-1 of the empty string
    twice and an empty map. *)
Theorem get_dir_hashes_no_files (P : Platform) (path : string) (E : option pyset) :
  (forall p, In p (allpaths P path) -> isfile P p = false) ->
  get_dir_hashes P path E
  = Ok ("da39a3ee5e6b4b0d3255bfef95601890afd80709", [],
        "da39a3ee5e6b4b0d3255bfef95601890afd80709").
Proof.
  intros Hnone. unfold get_dir_hashes, hash_items.
  rewrite (filter_none (isfile P)).
  2:{ intros a Ha. apply Hnone, (proj1 (sorted_In _ _)). assumption. }
  simpl. rewrite filter_none.
  2:{ intros a Ha. rewrite (Hnone a); [reflexivity|].
      apply (proj1 (sorted_In _ _)). assumption. }
  destruct E; vm_compute; reflexivity.
Qed.

Lemma get_dir_hashes_no_files_witness :
  get_dir_hashes Reference.platform "/nowhere" None
  = Ok ("da39a3ee5e6b4b0d3255bfef95601890afd80709", [],
        "da39a3ee5e6b4b0d3255bfef95601890afd80709").
Proof.
  apply (get_dir_hashes_no_files Reference.platform "/nowhere" None).
  intros p Hp. vm_compute in Hp. contradiction.
Defined.

(** X14: when the walk lists every path once and the regular files can be
    read, the first component of [get_dir_hashes] is [gen_ver_code] of the
    content hashes of the regular files, one hash per file (two files with
    the same bytes count twice), with the caller's exclusions. *)
Theorem get_dir_hashes_verification_code (P : Platform) (path : string)
        (E : option pyset) (content : string -> string) :
  NoDup (allpaths P path) ->
  readable P path content ->
  exists m r,
    get_dir_hashes P path E
    = Ok (gen_ver_code
            (map (fun p => hashlib.sha256_hexdigest (content p))
                 (filter (isfile P) (allpaths P path)))
            E,
          m, r).
Proof.
  intros Hnd Hread.
  assert (Hcode :
            gen_ver_code
              (dict_values
                 (dict_of_items
                    (map (fun p => (p, hashlib.sha256_hexdigest (content p)))
                         (filter (isfile P) (sorted (allpaths P path))))))
              (Some (excluded_or_empty E))
            = gen_ver_code
                (map (fun p => hashlib.sha256_hexdigest (content p))
                     (filter (isfile P) (allpaths P path)))
                E).
  { rewrite dict_of_items_nodup.
    2:{ apply NoDup_filter. eapply Permutation_NoDup; [|exact Hnd].
        apply Permutation_sym, sorted_perm. }
    unfold dict_values. rewrite map_map. simpl.
    transitivity (gen_ver_code
                    (map (fun p => hashlib.sha256_hexdigest (content p))
                         (filter (isfile P) (sorted (allpaths P path)))) E).
    - rewrite !gen_ver_code_kept. destruct E; reflexivity.
    - apply gen_ver_code_permutation, Permutation_map, filter_permutation,
        sorted_perm. }
  do 2 eexists.
  rewrite (get_dir_hashes_readable P path content Hread E), Hcode.
  reflexivity.
Qed.

Lemma get_dir_hashes_verification_code_witness :
  exists m r,
    get_dir_hashes Reference.platform "/pkg" None
    = Ok (gen_ver_code
            (map (fun p => hashlib.sha256_hexdigest (Reference.content p))
                 (filter (isfile Reference.platform) (allpaths Reference.platform "/pkg")))
            None,
          m, r).
Proof.
  apply (get_dir_hashes_verification_code Reference.platform "/pkg" None
           Reference.content).
  - vm_compute. repeat (constructor; [simpl; intuition discriminate|]). constructor.
  - exact reference_readable.
Defined.

(** X15: exclusions that match no regular file of the tree change nothing:
    the whole result is the one obtained without exclusions. *)
Theorem get_dir_hashes_irrelevant_exclusions (P : Platform) (path : string)
        (E : pyset) (content : string -> string) :
  readable P path content ->
  (forall p, In p (allpaths P path) -> isfile P p = true ->
             set_mem (hashlib.sha256_hexdigest (content p)) E = false) ->
  get_dir_hashes P path (Some E) = get_dir_hashes P path None.
Proof.
  intros Hread Hirr.
  rewrite (get_dir_hashes_readable P path content Hread (Some E)).
  rewrite (get_dir_hashes_readable P path content Hread None).
  set (hashes := dict_of_items
                   (map (fun p => (p, hashlib.sha256_hexdigest (content p)))
                        (filter (isfile P) (sorted (allpaths P path))))).
  assert (Hk : kept (Some (excluded_or_empty (Some E))) (dict_values hashes)
               = kept (Some (excluded_or_empty None)) (dict_values hashes)).
  { apply kept_ext. intros h Hh. simpl.
    unfold dict_values in Hh. apply in_map_iff in Hh.
    destruct Hh as [[k v] [<- Hkv]]. unfold hashes, dict_of_items in Hkv.
    apply dict_fold_entries in Hkv. destruct Hkv as [[]|[Hk Hv]].
    simpl in Hk, Hv. subst v. apply filter_In in Hk. destruct Hk as [Hk1 Hk2].
    apply Hirr; [apply (proj1 (sorted_In _ _)); assumption|assumption]. }
  assert (Hf : filter (fun p => isfile P p
                                && negb (set_mem (hashlib.sha256_hexdigest (content p))
                                           (excluded_or_empty (Some E))))
                      (sorted (allpaths P path))
               = filter (fun p => isfile P p
                                  && negb (set_mem (hashlib.sha256_hexdigest (content p))
                                             (excluded_or_empty None)))
                        (sorted (allpaths P path))).
  { apply filter_ext_in. intros p Hp.
    apply (proj1 (sorted_In _ _)) in Hp. simpl.
    destruct (isfile P p) eqn:Hfile; [|reflexivity].
    rewrite (Hirr p Hp Hfile). reflexivity. }
  rewrite Hf, !gen_ver_code_kept, Hk. reflexivity.
Qed.

Lemma get_dir_hashes_irrelevant_exclusions_witness :
  get_dir_hashes Reference.platform "/pkg" (Some ["0000"])
  = get_dir_hashes Reference.platform "/pkg" None.
Proof.
  apply (get_dir_hashes_irrelevant_exclusions Reference.platform "/pkg" ["0000"]
           Reference.content reference_readable).
  intros p Hin Hfile. simpl in Hin.
  repeat (destruct Hin as [<-|Hin]; [vm_compute; reflexivity|]).
  contradiction.
Defined.

Section RelativeIdentity.

Lemma allpaths_walked (P : Platform) (path p : string) :
  In p (allpaths P path) <-> walked P path p.
Proof.
  unfold allpaths, walked. rewrite in_flat_map. split.
  - intros [[[root dirnames] filenames] [Hin Hp]].
    rewrite <- map_app in Hp. apply in_map_iff in Hp.
    destruct Hp as [entry [<- Hentry]].
    exists root, dirnames, filenames, entry. auto.
  - intros [root [dirnames [filenames [entry [Hin [Hentry ->]]]]]].
    exists (root, dirnames, filenames). split; [assumption|].
    rewrite <- map_app. apply in_map. assumption.
Qed.

Lemma sorted_ascending_id (l : list string) : ascending l -> sorted l = l.
Proof.
  induction 1 as [|x l Hl IH Hhd]; [reflexivity|].
  change (sorted (x :: l)) with (insert_sorted x (sorted l)). rewrite IH.
  destruct Hhd as [|y l' Hxy]; simpl; [reflexivity|].
  rewrite Hxy. reflexivity.
Qed.

Lemma ascending_permutation_eq (l l' : list string) :
  ascending l -> ascending l' -> Permutation l l' -> l = l'.
Proof.
  intros Hl Hl' Hperm.
  rewrite <- (sorted_ascending_id l Hl), <- (sorted_ascending_id l' Hl').
  apply sorted_permutation. assumption.
Qed.

Lemma kept_none (H : list string) : kept None H = H.
Proof.
  unfold kept. simpl. induction H as [|h H IH]; simpl; congruence.
Qed.

Lemma encode_utf8_hex (s : string) :
  forallb is_hex (list_ascii_of_string s) = true -> pystr.encode_utf8 s = s.
Proof.
  induction s as [|c s IH]; simpl; [reflexivity|].
  intros H. apply andb_prop in H. destruct H as [Hc Hs].
  rewrite (IH Hs).
  replace (N_of_ascii c <? 128)%N with true; [reflexivity|].
  symmetry. apply N.ltb_lt. unfold is_hex in Hc.
  apply orb_prop in Hc.
  destruct Hc as [Hc|Hc]; apply andb_prop in Hc; destruct Hc as [_ Hc];
    apply N.leb_le in Hc; lia.
Qed.

Lemma concat_hex (l : list string) :
  (forall h, In h l -> forallb is_hex (list_ascii_of_string h) = true) ->
  forallb is_hex (list_ascii_of_string (String.concat "" l)) = true.
Proof.
  induction l as [|h l IH]; intros Hl; [reflexivity|].
  rewrite concat_empty_cons, chars_app, forallb_app.
  rewrite (Hl h (or_introl eq_refl)). apply IH.
  intros h' Hh'. apply Hl. right. assumption.
Qed.

Lemma spec_verification_code_unique (hashes hashes' : list string)
      (code code' : string) :
  Permutation hashes hashes' ->
  spec_verification_code hashes code -> spec_verification_code hashes' code' ->
  code = code'.
Proof.
  intros Hperm [blob [Hb [Ha ->]]] [blob' [Hb' [Ha' ->]]].
  rewrite (ascending_permutation_eq blob blob' Ha Ha'); [reflexivity|].
  eapply perm_trans; [exact Hb|].
  eapply perm_trans; [exact Hperm|]. apply Permutation_sym. assumption.
Qed.

(** [gen_ver_code] without exclusions carries out the procedure of 4.3 on
    hex digests. *)
Lemma gen_ver_code_spec (hashes : list string) :
  (forall h, In h hashes -> forallb is_hex (list_ascii_of_string h) = true) ->
  spec_verification_code hashes (gen_ver_code hashes None).
Proof.
  intros Hhex. exists (sorted hashes).
  split; [apply sorted_perm|]. split; [apply sorted_ascending|].
  rewrite gen_ver_code_kept, kept_none. unfold pystr.join_empty.
  rewrite encode_utf8_hex; [reflexivity|].
  apply concat_hex. intros h Hh. apply Hhex.
  apply (proj1 (sorted_In _ _)). assumption.
Qed.

End RelativeIdentity.

(** C6: when the walk lists every path once and the listed regular files
    can be read, [get_dir_hashes] returns, and its third component is the
    relative-identity code of the specification: the SHA-1 hex digest of the
    ascending, separator-free concatenation of the SHA-256 digests of the
    relative path strings (not of the contents) of exactly the regular files
    under the root whose content hash is not excluded.  The specification
    determines that code, so the third component equals it. *)
Theorem get_dir_hashes_relative_identity (P : Platform) (path : string)
        (E : option pyset) (content : string -> string) :
  readable P path content ->
  NoDup (allpaths P path) ->
  exists (v : string) (m : dict) (code : string),
    get_dir_hashes P path E = Ok (v, m, code)
    /\ spec_relative_identity_code P path content (excluded_or_empty E) code
    /\ (forall code' : string,
           spec_relative_identity_code P path content (excluded_or_empty E) code' ->
           code' = code).
Proof.
  intros Hread Hnd.
  set (f := fun p => isfile P p
                     && negb (set_mem (hashlib.sha256_hexdigest (content p))
                                (excluded_or_empty E))).
  set (files := filter f (sorted (allpaths P path))).
  set (g := fun p => hashlib.sha256_hexdigest
                       (pystr.encode_utf8
                          (posixpath.join posixpath.curdir
                             (posixpath.relpath_of (getcwd P) p path)))).
  set (digests := map (fun relpath => hashlib.sha256_hexdigest (pystr.encode_utf8 relpath))
                      (sorted (map (rel_of P path) files))).
  assert (Hfiles_nd : NoDup files).
  { apply NoDup_filter. eapply Permutation_NoDup; [|exact Hnd].
    apply Permutation_sym, sorted_perm. }
  assert (Hfiles_in : forall p, In p files <->
                                walked P path p /\ isfile P p = true
                                /\ ~ In (hashlib.sha256_hexdigest (content p))
                                        (excluded_or_empty E)).
  { intros p. unfold files, f. rewrite filter_In, sorted_In, allpaths_walked.
    rewrite andb_true_iff, negb_true_iff, <- not_true_iff_false.
    unfold set_mem. rewrite existsb_eqb_In. tauto. }
  assert (Hdigests : Permutation digests (map g files)).
  { unfold digests.
    replace (map g files)
      with (map (fun r => hashlib.sha256_hexdigest (pystr.encode_utf8 r))
                (map (rel_of P path) files))
      by (rewrite map_map; reflexivity).
    apply Permutation_map, sorted_perm. }
  assert (Hspec : spec_verification_code (map g files) (gen_ver_code digests None)).
  { destruct (gen_ver_code_spec digests) as [blob [Hb [Ha Hc]]].
    - intros h Hh. unfold digests in Hh. apply in_map_iff in Hh.
      destruct Hh as [r [<- _]]. apply hexdigest_shape.
    - exists blob. split; [|auto]. eapply perm_trans; eassumption. }
  exists (gen_ver_code
            (dict_values
               (dict_of_items
                  (map (fun p => (p, hashlib.sha256_hexdigest (content p)))
                       (filter (isfile P) (sorted (allpaths P path))))))
            (Some (excluded_or_empty E))),
         (dict_of_items
            (map (fun p => (p, hashlib.sha256_hexdigest (content p)))
                 (filter (isfile P) (sorted (allpaths P path))))),
         (gen_ver_code digests None).
  split; [apply (get_dir_hashes_readable P path content Hread E)|]. split.
  - exists files. auto.
  - intros code' [files' [Hnd' [Hin' Hspec']]].
    apply (spec_verification_code_unique (map g files') (map g files));
      [|assumption|assumption].
    apply Permutation_map, NoDup_Permutation; [assumption|assumption|].
    intros p. rewrite Hin', Hfiles_in. tauto.
Qed.

Lemma get_dir_hashes_relative_identity_witness :
  exists (v : string) (m : dict),
    get_dir_hashes Reference.platform "/pkg"
      (Some ["f40cafaca0fa13eb1b4b1dc8534f16a5385ac80253edb57f7bf7360e3693b7cc"])
    = Ok (v, m, "015510e102034ed72e70ae59db81039801069915")
    /\ spec_relative_identity_code Reference.platform "/pkg" Reference.content
         ["f40cafaca0fa13eb1b4b1dc8534f16a5385ac80253edb57f7bf7360e3693b7cc"]
         "015510e102034ed72e70ae59db81039801069915".
Proof.
  destruct (get_dir_hashes_relative_identity Reference.platform "/pkg"
              (Some ["f40cafaca0fa13eb1b4b1dc8534f16a5385ac80253edb57f7bf7360e3693b7cc"])
              Reference.content reference_readable)
    as [v [m [code [Hrun [Hspec _]]]]].
  - vm_compute. repeat (constructor; [simpl; intuition discriminate|]). constructor.
  - assert (Hcode : code = "015510e102034ed72e70ae59db81039801069915").
    { vm_compute in Hrun. injection Hrun as _ _ <-. reflexivity. }
    rewrite Hcode in Hrun, Hspec. exists v, m. split; assumption.
Defined.

(** The code of the reference tree by hand: the digests of [./src/a.c],
    [./README] and [./src/b.c], in ascending order, under SHA-1. *)
Example relative_identity_reference :
  hashlib.sha1_hexdigest
    ("34843c58d014d6da58d8869f9f4198cedb96e74234773fb5b1284db884a96132"
     ++ "3ef948e594269291c5ecb426090b8947a8f2e309949f91cc29cfb09146909a61"
     ++ "64bebaa405040695429212b6e04467a82288d1645f6418c38d31e1a1282886e9")%string
  = "015510e102034ed72e70ae59db81039801069915"
  /\ hashlib.sha256_hexdigest "./src/a.c"
     = "34843c58d014d6da58d8869f9f4198cedb96e74234773fb5b1284db884a96132"
  /\ hashlib.sha256_hexdigest "./README"
     = "3ef948e594269291c5ecb426090b8947a8f2e309949f91cc29cfb09146909a61"
  /\ hashlib.sha256_hexdigest "./src/b.c"
     = "64bebaa405040695429212b6e04467a82288d1645f6418c38d31e1a1282886e9".
Proof. split; [|split; [|split]]; vm_compute; reflexivity. Qed.

(** ** More on temporary extraction *)

Section MoreExtraction.

Lemma common_run_prefix (a b : string) :
  string_of_list_ascii
    (posixpath.common_run Ascii.eqb (list_ascii_of_string a) (list_ascii_of_string b))
  = a <-> String.prefix a b = true.
Proof.
  revert b. induction a as [|x a IH]; intros b.
  - destruct b; simpl; tauto.
  - destruct b as [|y b]; simpl.
    + split; discriminate.
    + destruct (Ascii.eqb_spec x y) as [->|Hxy].
      * destruct (ascii_dec y y) as [_|]; [|congruence]. simpl.
        rewrite <- IH. split; [intros [= H]; assumption|intros ->; reflexivity].
      * destruct (ascii_dec x y); [contradiction|]. simpl. split; discriminate.
Qed.

Lemma common_run_sym (l1 l2 : list ascii) :
  posixpath.common_run Ascii.eqb l1 l2 = posixpath.common_run Ascii.eqb l2 l1.
Proof.
  revert l2. induction l1 as [|x l1 IH]; intros [|y l2]; simpl; try reflexivity.
  rewrite (Ascii.eqb_sym y x).
  destruct (Ascii.eqb_spec x y) as [->|]; [rewrite IH|]; reflexivity.
Qed.

Lemma commonprefix_run (a b : string) :
  posixpath.commonprefix a b
  = string_of_list_ascii
      (posixpath.common_run Ascii.eqb (list_ascii_of_string a) (list_ascii_of_string b)).
Proof.
  unfold posixpath.commonprefix. destruct (String.leb a b); [reflexivity|].
  rewrite common_run_sym. reflexivity.
Qed.

Variable A : Type.
Variable L : Fallible.Library.
Variable path : string.
Variable body : string * list string -> World -> result A * World.

(** A run whose [try] block reaches the [yield]. *)
Lemma tempextract_yielded (w w1 w2 : World) (d : string)
      (v : string * list string) (tr1 : list event) (r : result A) :
  mkdtemp (Fallible.base L) w = Ok d ->
  Fallible.tempextract_enter L path d (mkdir d w, [EvMkdtemp d]) = (Ok v, (w1, tr1)) ->
  body v w1 = (r, w2) ->
  Fallible.tempextract L path body (w, [])
  = (match fst (Fallible.shutil_rmtree L d w2) with
     | Ok _ => r
     | Raise e => Raise e
     end,
     (snd (Fallible.shutil_rmtree L d w2), tr1 ++ [EvYield d; EvRmtree d])).
Proof.
  intros Hmk Henter Hbody. unfold Fallible.tempextract. simpl fst. rewrite Hmk.
  unfold try_finally, pbind at 1 2 3. unfold emit at 1. simpl fst. simpl snd.
  unfold on_world at 1. simpl fst. simpl snd. simpl app.
  rewrite Henter. unfold pbind, emit, on_world. simpl. rewrite Hbody. simpl.
  destruct (Fallible.shutil_rmtree L d w2) as [[[]|e] w3]; simpl;
    rewrite <- app_assoc; reflexivity.
Qed.

(** A run whose [try] block raises before the [yield]. *)
Lemma tempextract_not_yielded (w w1 : World) (d : string)
      (tr1 : list event) (e : exn) :
  mkdtemp (Fallible.base L) w = Ok d ->
  Fallible.tempextract_enter L path d (mkdir d w, [EvMkdtemp d]) = (Raise e, (w1, tr1)) ->
  Fallible.tempextract L path body (w, [])
  = (match fst (Fallible.shutil_rmtree L d w1) with
     | Ok _ => Raise e
     | Raise e' => Raise e'
     end,
     (snd (Fallible.shutil_rmtree L d w1), tr1 ++ [EvRmtree d])).
Proof.
  intros Hmk Henter. unfold Fallible.tempextract. simpl fst. rewrite Hmk.
  unfold try_finally, pbind at 1 2 3. unfold emit at 1. simpl fst. simpl snd.
  unfold on_world at 1. simpl fst. simpl snd. simpl app.
  rewrite Henter. unfold pbind, emit, on_world. simpl.
  destruct (Fallible.shutil_rmtree L d w1) as [[[]|e'] w2]; reflexivity.
Qed.

End MoreExtraction.

(** X16: [is_within_directory] is a character-prefix test on the two
    absolute paths: it accepts a target exactly when the absolute form of the
    directory is a leading part of the absolute form of the target, whether
    or not a path separator follows. *)
Theorem is_within_directory_prefix (P : Platform) (directory target : string) :
  is_within_directory P directory target
  = String.prefix (posixpath.abspath (getcwd P) directory)
                  (posixpath.abspath (getcwd P) target).
Proof.
  unfold is_within_directory. rewrite commonprefix_run.
  destruct (String.eqb_spec
              (string_of_list_ascii
                 (posixpath.common_run Ascii.eqb
                    (list_ascii_of_string (posixpath.abspath (getcwd P) directory))
                    (list_ascii_of_string (posixpath.abspath (getcwd P) target))))
              (posixpath.abspath (getcwd P) directory)) as [H|H].
  - symmetry. apply common_run_prefix. assumption.
  - destruct (String.prefix _ _) eqn:E; [|reflexivity].
    apply common_run_prefix in E. contradiction.
Qed.

(** X17: a tar archive all of whose members pass the check is extracted and
    the caller's code runs with the root and the member names in archive
    order; then [rmtree] is called on the root, and the scope ends with the
    caller's result or exception on the disk that [rmtree] leaves -- or with
    the exception of [rmtree], when that call raises. *)
Theorem tempextract_tar_scope (A : Type) (L : Fallible.Library) (path : string)
        (body : string * list string -> World -> result A * World)
        (w w1 w2 : World) (d : string) (ms : list Member) (r : result A) :
  mkdtemp (Fallible.base L) w = Ok d ->
  Fallible.tarfile_is_tarfile L path = Ok true ->
  tarfile_open (Fallible.base L) path = Ok ms ->
  forallb (fun m => is_within_directory (Fallible.base L) d (posixpath.join d (name m)))
          ms = true ->
  tar_extractall (Fallible.base L) ms d (mkdir d w) = (Ok tt, w1) ->
  body (d, map name ms) w1 = (r, w2) ->
  Fallible.tempextract L path body (w, [])
  = (match fst (Fallible.shutil_rmtree L d w2) with
     | Ok _ => r
     | Raise e => Raise e
     end,
     (snd (Fallible.shutil_rmtree L d w2),
      [EvMkdtemp d; EvExtractall "tar" d; EvYield d; EvRmtree d])).
Proof.
  intros Hmk Htar Hopen Hok Hext Hbody.
  apply (tempextract_yielded A L path body w w1 w2 d (d, map name ms)
           [EvMkdtemp d; EvExtractall "tar" d] r Hmk); [|assumption].
  unfold Fallible.tempextract_enter, Fallible.archive_type. rewrite Htar. simpl.
  unfold safe_extract, pbind, lift_result, emit, on_world, pret.
  rewrite Hopen, check_members_spec, Hok. simpl. rewrite Hext. reflexivity.
Qed.

Lemma tempextract_tar_scope_witness :
  Fallible.tempextract ReferenceLibrary.library "/in/ok.tar" Reference.count_names
    (Reference.empty_disk, [])
  = (Ok 2,
     (Reference.empty_disk,
      [EvMkdtemp "/tmp/tmpabc"; EvExtractall "tar" "/tmp/tmpabc";
       EvYield "/tmp/tmpabc"; EvRmtree "/tmp/tmpabc"])).
Proof.
  apply (tempextract_tar_scope nat ReferenceLibrary.library "/in/ok.tar"
           Reference.count_names Reference.empty_disk
           (snd (Reference.tar_extract
                   [{| name := "a.txt"; payload := "A" |};
                    {| name := "dir/b.txt"; payload := "B" |}]
                   "/tmp/tmpabc" (mkdir "/tmp/tmpabc" Reference.empty_disk)))
           (snd (Reference.tar_extract
                   [{| name := "a.txt"; payload := "A" |};
                    {| name := "dir/b.txt"; payload := "B" |}]
                   "/tmp/tmpabc" (mkdir "/tmp/tmpabc" Reference.empty_disk)))
           "/tmp/tmpabc"
           [{| name := "a.txt"; payload := "A" |};
            {| name := "dir/b.txt"; payload := "B" |}]
           (Ok 2)); reflexivity.
Defined.

(** X18: a zip archive is handed to [extractall] whatever its member names
    are, and the caller's code runs with the root and the member names in
    archive order; the scope ends as in the tar case. *)
Theorem tempextract_zip_scope (A : Type) (L : Fallible.Library) (path : string)
        (body : string * list string -> World -> result A * World)
        (w w1 w2 : World) (d : string) (ms : list Member) (r : result A) :
  mkdtemp (Fallible.base L) w = Ok d ->
  Fallible.tarfile_is_tarfile L path = Ok false ->
  Fallible.zipfile_is_zipfile L path = Ok true ->
  zipfile_open (Fallible.base L) path = Ok ms ->
  zip_extractall (Fallible.base L) ms d (mkdir d w) = (Ok tt, w1) ->
  body (d, map name ms) w1 = (r, w2) ->
  Fallible.tempextract L path body (w, [])
  = (match fst (Fallible.shutil_rmtree L d w2) with
     | Ok _ => r
     | Raise e => Raise e
     end,
     (snd (Fallible.shutil_rmtree L d w2),
      [EvMkdtemp d; EvExtractall "zip" d; EvYield d; EvRmtree d])).
Proof.
  intros Hmk Htar Hzip Hopen Hext Hbody.
  apply (tempextract_yielded A L path body w w1 w2 d (d, map name ms)
           [EvMkdtemp d; EvExtractall "zip" d] r Hmk); [|assumption].
  unfold Fallible.tempextract_enter, Fallible.archive_type. rewrite Htar, Hzip. simpl.
  unfold pbind, lift_result, emit, on_world, pret.
  rewrite Hopen. simpl. rewrite Hext. reflexivity.
Qed.

Lemma tempextract_zip_scope_witness :
  Fallible.tempextract ReferenceLibrary.library "/in/evil.zip" Reference.failing_body
    (Reference.empty_disk, [])
  = (Raise (ValueError "caller"),
     (Reference.empty_disk,
      [EvMkdtemp "/tmp/tmpabc"; EvExtractall "zip" "/tmp/tmpabc";
       EvYield "/tmp/tmpabc"; EvRmtree "/tmp/tmpabc"])).
Proof.
  apply (tempextract_zip_scope nat ReferenceLibrary.library "/in/evil.zip"
           Reference.failing_body Reference.empty_disk
           (snd (Reference.zip_extract
                   [{| name := "../../etc/passwd"; payload := "root" |}]
                   "/tmp/tmpabc" (mkdir "/tmp/tmpabc" Reference.empty_disk)))
           (snd (Reference.zip_extract
                   [{| name := "../../etc/passwd"; payload := "root" |}]
                   "/tmp/tmpabc" (mkdir "/tmp/tmpabc" Reference.empty_disk)))
           "/tmp/tmpabc"
           [{| name := "../../etc/passwd"; payload := "root" |}]
           (Raise (ValueError "caller"))); reflexivity.
Defined.

(** X19: when a container check raises, when the archive cannot be opened,
    or when the library fails while extracting, the caller's code does not
    run: [rmtree] is called on the root, and the scope ends with that
    exception on the disk that [rmtree] leaves -- or with the exception of
    [rmtree], when that call raises too. *)
Theorem tempextract_library_raises (A : Type) (L : Fallible.Library)
        (path : string)
        (body : string * list string -> World -> result A * World)
        (w : World) (d : string) (e : exn) :
  mkdtemp (Fallible.base L) w = Ok d ->
  (Fallible.tarfile_is_tarfile L path = Raise e
   \/ (Fallible.tarfile_is_tarfile L path = Ok false
       /\ Fallible.zipfile_is_zipfile L path = Raise e)
   \/ (Fallible.tarfile_is_tarfile L path = Ok true
       /\ tarfile_open (Fallible.base L) path = Raise e) ->
   Fallible.tempextract L path body (w, [])
   = (match fst (Fallible.shutil_rmtree L d (mkdir d w)) with
      | Ok _ => Raise e
      | Raise e' => Raise e'
      end,
      (snd (Fallible.shutil_rmtree L d (mkdir d w)), [EvMkdtemp d; EvRmtree d])))
  /\ (forall (ms : list Member) (w1 : World),
         Fallible.tarfile_is_tarfile L path = Ok true ->
         tarfile_open (Fallible.base L) path = Ok ms ->
         forallb (fun m => is_within_directory (Fallible.base L) d
                             (posixpath.join d (name m))) ms = true ->
         tar_extractall (Fallible.base L) ms d (mkdir d w) = (Raise e, w1) ->
         Fallible.tempextract L path body (w, [])
         = (match fst (Fallible.shutil_rmtree L d w1) with
            | Ok _ => Raise e
            | Raise e' => Raise e'
            end,
            (snd (Fallible.shutil_rmtree L d w1),
             [EvMkdtemp d; EvExtractall "tar" d; EvRmtree d]))).
Proof.
  intros Hmk. split.
  - intros Hraise.
    apply (tempextract_not_yielded A L path body w (mkdir d w) d [EvMkdtemp d] e Hmk).
    unfold Fallible.tempextract_enter, Fallible.archive_type.
    destruct Hraise as [Htar|[[Htar Hzip]|[Htar Hopen]]].
    + rewrite Htar. reflexivity.
    + rewrite Htar, Hzip. reflexivity.
    + rewrite Htar. simpl. unfold pbind, lift_result. rewrite Hopen. reflexivity.
  - intros ms w1 Htar Hopen Hok Hext.
    apply (tempextract_not_yielded A L path body w w1 d
             [EvMkdtemp d; EvExtractall "tar" d] e Hmk).
    unfold Fallible.tempextract_enter, Fallible.archive_type. rewrite Htar. simpl.
    unfold safe_extract, pbind, lift_result, emit, on_world, pret.
    rewrite Hopen, check_members_spec, Hok. simpl. rewrite Hext. reflexivity.
Qed.

Lemma tempextract_library_raises_witness :
  Fallible.tempextract ReferenceLibrary.library "/in" Reference.count_names
    (Reference.empty_disk, [])
  = (Raise (OtherError "IsADirectoryError" "/in"),
     (Reference.empty_disk, [EvMkdtemp "/tmp/tmpabc"; EvRmtree "/tmp/tmpabc"]))
  /\ Fallible.tempextract (Fallible.returning (Reference.broken_tar "/in/ok.tar"))
       "/in/ok.tar" Reference.count_names (Reference.empty_disk, [])
     = (Raise (OtherError "ReadError" "/in/ok.tar"),
        (Reference.empty_disk, [EvMkdtemp "/tmp/tmpabc"; EvRmtree "/tmp/tmpabc"])).
Proof.
  split.
  - apply (proj1 (tempextract_library_raises nat ReferenceLibrary.library
                    "/in" Reference.count_names Reference.empty_disk
                    "/tmp/tmpabc" (OtherError "IsADirectoryError" "/in")
                    eq_refl)).
    left. reflexivity.
  - apply (proj1 (tempextract_library_raises nat
                    (Fallible.returning (Reference.broken_tar "/in/ok.tar"))
                    "/in/ok.tar" Reference.count_names Reference.empty_disk
                    "/tmp/tmpabc" (OtherError "ReadError" "/in/ok.tar")
                    eq_refl)).
    right. right. split; reflexivity.
Defined.

(** X20: the plain [tempdir] scope.  The caller's code runs with the fresh
    directory; then [rmtree] is called on it once, and the scope ends with
    the caller's result or exception on the disk that [rmtree] leaves -- or
    with the exception of [rmtree], when that call raises; and when
    [mkdtemp] itself raises, that exception is what the caller sees and
    nothing is removed. *)
Theorem tempdir_rmtree_scope (A : Type) (L : Fallible.Library)
        (body : string -> World -> result A * World) (w : World) :
  match mkdtemp (Fallible.base L) w with
  | Ok d =>
      let (r, w1) := body d (mkdir d w) in
      Fallible.tempdir L body (w, [])
      = (match fst (Fallible.shutil_rmtree L d w1) with
         | Ok _ => r
         | Raise e => Raise e
         end,
         (snd (Fallible.shutil_rmtree L d w1),
          [EvMkdtemp d; EvYield d; EvRmtree d]))
  | Raise e => Fallible.tempdir L body (w, []) = (Raise e, (w, []))
  end.
Proof.
  unfold Fallible.tempdir. simpl fst.
  destruct (mkdtemp (Fallible.base L) w) as [d|e]; [|reflexivity].
  unfold try_finally, pbind, emit, on_world. simpl.
  destruct (body d (mkdir d w)) as [r w1]. simpl.
  destruct (Fallible.shutil_rmtree L d w1) as [[[]|e] w2]; reflexivity.
Qed.

(** ** DoSPDX.py: fields and command line *)

Section Fields.

Lemma py_or_not_none (v : pyval) : py_or v (PyStr "") <> PyNone.
Proof. destruct v as [|s|[|]]; unfold py_or; simpl; try discriminate.
       destruct (String.eqb s ""); discriminate. Qed.

Lemma extract_fields_ok (argv : pydict) :
  has_field_options argv ->
  extract_fields argv
  = Ok (map (fun fo => (fst fo, py_or (option_value argv (snd fo)) (PyStr "")))
            field_options).
Proof.
  intros Hall. unfold extract_fields.
  rewrite (rmapM_ok _ (fun fo => (fst fo, option_value argv (snd fo)))).
  - unfold rbind. rewrite map_map. reflexivity.
  - intros fo Hfo. destruct (Hall (snd fo)) as [v Hv].
    + apply in_map. assumption.
    + unfold option_value. unfold getitem in *.
      destruct (pydict_get argv (snd fo)); [reflexivity|discriminate].
Qed.

Lemma pydict_get_map (g : string -> pyval) (l : list (string * string))
      (k o : string) :
  NoDup (map fst l) -> In (k, o) l ->
  pydict_get (map (fun fo => (fst fo, g (snd fo))) l) k = Some (g o).
Proof.
  induction l as [|[k' o'] l IH]; intros Hnd Hin; [contradiction|].
  simpl in *. inversion Hnd as [|? ? Hk' Hnd']; subst.
  destruct Hin as [[= -> ->]|Hin].
  - rewrite String.eqb_refl. reflexivity.
  - destruct (String.eqb_spec k k') as [->|].
    + exfalso. apply Hk'. apply (in_map fst) in Hin. assumption.
    + apply IH; assumption.
Qed.

Lemma pydict_get_keys (d : pydict) (k : string) :
  pydict_get d k <> None <-> In k (map fst d).
Proof.
  induction d as [|[k' v] d IH]; simpl.
  - tauto.
  - destruct (String.eqb_spec k k') as [->|Hk].
    + split; [auto|discriminate].
    + rewrite IH. split; [auto|]. intros [H|H]; [congruence|assumption].
Qed.

Lemma pydict_get_In (d : pydict) (k : string) (v : pyval) :
  pydict_get d k = Some v -> In (k, v) d.
Proof.
  induction d as [|[k' v'] d IH]; simpl; [discriminate|].
  destruct (String.eqb_spec k k') as [->|Hk].
  - intros [= ->]. auto.
  - auto.
Qed.

Lemma field_options_nodup : NoDup (map fst field_options).
Proof.
  simpl. repeat (constructor; [simpl; intuition discriminate|]). constructor.
Qed.

End Fields.

(** X21: when [argv] has all eleven options, [extract_fields] returns a
    dictionary whose keys are exactly the eleven field names; each field
    holds the text of its option, or the empty string when the option is
    [None] or empty, and no field is ever [None]. *)
Theorem extract_fields_by_key (argv : pydict) :
  has_field_options argv ->
  exists fields : pydict,
    extract_fields argv = Ok fields
    /\ (forall field : string,
           pydict_get fields field <> None <-> In field (map fst field_options))
    /\ (forall field option v,
           In (field, option) field_options -> getitem argv option = Ok v ->
           pydict_get fields field = Some (py_or v (PyStr "")))
    /\ (forall field : string, pydict_get fields field <> Some PyNone).
Proof.
  intros Hall. eexists. split; [apply extract_fields_ok; assumption|].
  split; [|split].
  - intros field. rewrite pydict_get_keys, map_map. reflexivity.
  - intros field option v Hin Hv.
    rewrite (pydict_get_map (fun o => py_or (option_value argv o) (PyStr ""))
               field_options field option field_options_nodup Hin).
    unfold option_value. unfold getitem in Hv.
    destruct (pydict_get argv option); [|discriminate].
    injection Hv as ->. reflexivity.
  - intros field Hget. apply pydict_get_In, in_map_iff in Hget.
    destruct Hget as [fo [[= _ Hv] _]]. exact (py_or_not_none _ Hv).
Qed.

Lemma extract_fields_by_key_witness :
  exists fields : pydict,
    extract_fields (docopt_result PyNone (PyStr "pkg.tar.gz") (PyBool false) PyNone) = Ok fields
    /\ pydict_get fields "creator" = Some (PyStr "Tool: dosocs2")
    /\ pydict_get fields "document_comment" = Some (PyStr "").
Proof.
  destruct (extract_fields_by_key (docopt_result PyNone (PyStr "pkg.tar.gz") (PyBool false) PyNone)) as [fields [Hrun [_ [Hget _]]]].
  - intros option Hin. simpl in Hin.
    repeat (destruct Hin as [<-|Hin]; [eexists; reflexivity|]). contradiction.
  - exists fields. split; [exact Hrun|]. split.
    + apply (Hget "creator" "--creator" (PyStr "Tool: dosocs2")).
      * simpl. tauto.
      * reflexivity.
    + apply (Hget "document_comment" "--comment" PyNone).
      * simpl. tauto.
      * reflexivity.
Defined.

(** X22: when [argv] lacks one of the options, [extract_fields] raises
    [KeyError] for a missing option and returns no fields. *)
Theorem extract_fields_missing (argv : pydict) (option : string) :
  In option (map snd field_options) -> pydict_get argv option = None ->
  exists missing : string,
    In missing (map snd field_options) /\ pydict_get argv missing = None
    /\ extract_fields argv = Raise (OtherError "KeyError" missing).
Proof.
  intros Hin Hnone.
  destruct (rmapM_raise
              (fun fo : string * string =>
                 rbind (getitem argv (snd fo)) (fun v => Ok (fst fo, v)))
              field_options) as [fo [e [Hfo [Hf Hr]]]].
  { apply in_map_iff in Hin. destruct Hin as [fo [<- Hfo]].
    exists fo, (OtherError "KeyError" (snd fo)). split; [assumption|].
    unfold getitem. rewrite Hnone. reflexivity. }
  exists (snd fo). split; [apply in_map; assumption|].
  unfold getitem in Hf. destruct (pydict_get argv (snd fo)) eqn:Eg; [discriminate|].
  split; [reflexivity|]. simpl in Hf. injection Hf as <-.
  unfold extract_fields. rewrite Hr. reflexivity.
Qed.

Lemma extract_fields_missing_witness :
  exists missing : string,
    In missing (map snd field_options) /\ pydict_get [] missing = None
    /\ extract_fields [] = Raise (OtherError "KeyError" missing).
Proof.
  apply (extract_fields_missing [] "--comment").
  - simpl. tauto.
  - reflexivity.
Defined.

Section CommandLine.

Variable Doc : Type.
Variable DB : Type.
Variable fetch_doc : DB -> pyval -> option Doc.
Variable scan_package_create_doc : DB -> pyval -> pyval * DB.
Variable render_doc : DB -> Doc -> string -> string.

Let run := main Doc DB fetch_doc scan_package_create_doc render_doc.

(** X23: with neither a document id nor a file, [main] prints its two usage
    lines and exits with status 1; the database is not touched, whatever else
    is on the command line. *)
Theorem main_nothing_given (sys_argv0 : string) (argv : pydict)
        (out : list string) (db : DB) :
  getitem argv "--doc-id" = Ok PyNone ->
  getitem argv "FILE" = Ok PyNone ->
  let progname := posixpath.basename sys_argv0 in
  run sys_argv0 argv (out, db)
  = (Raise (OtherError "SystemExit" "1"),
     (out ++ [(progname ++ ": You must specify a file or document ID")%string;
              (progname ++ ": Try `" ++ progname
                 ++ " --help' for more information.")%string],
      db)).
Proof.
  intros Hid Hfile progname. unfold run, main, io_bind, io_lift.
  rewrite Hid. simpl. rewrite Hfile. simpl.
  rewrite <- app_assoc. reflexivity.
Qed.

(** X24: an output format other than [tag] and [rdf] is refused before the
    database is used: [main] prints the two lines about the unknown format
    and exits with status 1, without scanning or fetching anything. *)
Theorem main_unknown_format (sys_argv0 : string) (argv : pydict)
        (out : list string) (db : DB) (doc_id file no_scan : pyval) (fmt : string) :
  has_field_options argv ->
  getitem argv "--doc-id" = Ok doc_id ->
  getitem argv "FILE" = Ok file ->
  is_none doc_id && is_none file = false ->
  getitem argv "--no-scan" = Ok no_scan ->
  getitem argv "--print" = Ok (PyStr fmt) ->
  fmt <> "tag" -> fmt <> "rdf" ->
  let progname := posixpath.basename sys_argv0 in
  run sys_argv0 argv (out, db)
  = (Raise (OtherError "SystemExit" "1"),
     (out ++ [(progname ++ ": Unknown output format '" ++ fmt ++ "'")%string;
              (progname ++ ": Try `" ++ progname
                 ++ " --help' for more information.")%string],
      db)).
Proof.
  intros Hall Hid Hfile Hgiven Hscan Hprint Htag Hrdf progname.
  unfold run, main, io_bind, io_lift.
  rewrite Hid, Hfile, (extract_fields_ok argv Hall), Hscan, Hprint.
  destruct (is_none doc_id) eqn:Edoc; simpl in Hgiven; simpl;
    try rewrite Hgiven; simpl;
    destruct (String.eqb_spec fmt "tag"); try contradiction;
    destruct (String.eqb_spec fmt "rdf"); try contradiction; simpl;
    rewrite <- !app_assoc; simpl; rewrite !string_app_assoc; reflexivity.
Qed.

(** X25: [--no-scan] with a file and without a document id leaves the local
    variable [document] unassigned: [main] raises [UnboundLocalError] when
    it reaches the second database block, having printed nothing and used
    the database for nothing. *)
Theorem main_no_scan_unbound (sys_argv0 : string) (argv : pydict)
        (out : list string) (db : DB) (file no_scan output_format : pyval) :
  has_field_options argv ->
  getitem argv "--doc-id" = Ok PyNone ->
  getitem argv "FILE" = Ok file ->
  is_none file = false ->
  getitem argv "--no-scan" = Ok no_scan ->
  truthy no_scan = true ->
  getitem argv "--print" = Ok output_format ->
  In output_format [PyStr "tag"; PyStr "rdf"; PyNone] ->
  run sys_argv0 argv (out, db) = (Raise (UnboundLocalError "document"), (out, db)).
Proof.
  intros Hall Hid Hfile Hgiven Hscan Htruthy Hprint Hfmt.
  unfold run, main, io_bind, io_lift.
  rewrite Hid, Hfile, (extract_fields_ok argv Hall), Hscan, Hprint.
  simpl. rewrite Hgiven. simpl. rewrite Htruthy. simpl.
  simpl in Hfmt. destruct Hfmt as [<-|[<-|[<-|[]]]]; reflexivity.
Qed.

(** X26: a document id takes precedence over a file: the document is
    fetched, nothing is scanned, and the document is printed once through the
    template of the chosen format; an id the database does not know gives one
    line and exit status 1. *)
Theorem main_doc_id (sys_argv0 : string) (argv : pydict)
        (out : list string) (db : DB) (id fmt template : string)
        (file no_scan : pyval) :
  has_field_options argv ->
  getitem argv "--doc-id" = Ok (PyStr id) ->
  getitem argv "FILE" = Ok file ->
  getitem argv "--no-scan" = Ok no_scan ->
  getitem argv "--print" = Ok (PyStr fmt) ->
  In (fmt, template) [("tag", "templates/2.0.tag"); ("rdf", "templates/2.0.rdf")] ->
  run sys_argv0 argv (out, db)
  = match fetch_doc db (PyStr id) with
    | Some doc => (Ok tt, (out ++ [render_doc db doc template], db))
    | None =>
        (Raise (OtherError "SystemExit" "1"),
         (out ++ [("Document id " ++ id ++ " not found in the database.")%string], db))
    end.
Proof.
  intros Hall Hid Hfile Hscan Hprint Hfmt.
  unfold run, main, io_bind, io_lift.
  rewrite Hid, Hfile, (extract_fields_ok argv Hall), Hscan, Hprint.
  simpl in Hfmt.
  destruct Hfmt as [[= <- <-]|[[= <- <-]|[]]]; simpl;
    destruct (fetch_doc db (PyStr id)); reflexivity.
Qed.

(** X27: with a file and no document id, and scanning not switched off,
    [main] scans the package, fetches the document under the id the scan
    returned, and prints it once when a format was asked for; without
    [--print], or when the fetch finds nothing, it prints nothing and still
    returns normally with the scan done. *)
Theorem main_scan (sys_argv0 : string) (argv : pydict)
        (out : list string) (db : DB) (file no_scan output_format : pyval) :
  has_field_options argv ->
  getitem argv "--doc-id" = Ok PyNone ->
  getitem argv "FILE" = Ok file ->
  is_none file = false ->
  getitem argv "--no-scan" = Ok no_scan ->
  truthy no_scan = false ->
  getitem argv "--print" = Ok output_format ->
  In output_format [PyStr "tag"; PyStr "rdf"; PyNone] ->
  run sys_argv0 argv (out, db)
  = let (docid, db') := scan_package_create_doc db file in
    match fetch_doc db' docid, output_format with
    | Some doc, PyStr fmt =>
        (Ok tt, (out ++ [render_doc db' doc ("templates/2.0." ++ fmt)], db'))
    | _, _ => (Ok tt, (out, db'))
    end.
Proof.
  intros Hall Hid Hfile Hgiven Hscan Hfalsy Hprint Hfmt.
  unfold run, main, io_bind, io_lift.
  rewrite Hid, Hfile, (extract_fields_ok argv Hall), Hscan, Hprint.
  simpl. rewrite Hgiven. simpl. rewrite Hfalsy. simpl.
  simpl in Hfmt.
  destruct Hfmt as [<-|[<-|[<-|[]]]]; simpl;
    destruct (scan_package_create_doc db file) as [docid db']; simpl;
    destruct (fetch_doc db' docid); reflexivity.
Qed.

End CommandLine.

Lemma main_nothing_given_witness :
  ReferenceDB.run "/usr/bin/DoSPDX.py"
    (docopt_result PyNone PyNone (PyBool false) (PyStr "tag")) ([], ReferenceDB.stored)
  = (Raise (OtherError "SystemExit" "1"),
     (["DoSPDX.py: You must specify a file or document ID";
       "DoSPDX.py: Try `DoSPDX.py --help' for more information."],
      ReferenceDB.stored)).
Proof.
  apply (main_nothing_given string (list (string * string)) ReferenceDB.fetch
           ReferenceDB.scan ReferenceDB.render "/usr/bin/DoSPDX.py"
           (docopt_result PyNone PyNone (PyBool false) (PyStr "tag"))
           [] ReferenceDB.stored); reflexivity.
Defined.

Lemma docopt_result_has_field_options (doc_id file no_scan print : pyval) :
  has_field_options (docopt_result doc_id file no_scan print).
Proof.
  intros option Hin. simpl in Hin.
  repeat (destruct Hin as [<-|Hin]; [eexists; reflexivity|]). contradiction.
Qed.

Lemma main_unknown_format_witness :
  ReferenceDB.run "DoSPDX.py"
    (docopt_result PyNone (PyStr "pkg.tar.gz") (PyBool false) (PyStr "json"))
    ([], ReferenceDB.stored)
  = (Raise (OtherError "SystemExit" "1"),
     (["DoSPDX.py: Unknown output format 'json'";
       "DoSPDX.py: Try `DoSPDX.py --help' for more information."],
      ReferenceDB.stored)).
Proof.
  apply (main_unknown_format string (list (string * string)) ReferenceDB.fetch
           ReferenceDB.scan ReferenceDB.render "DoSPDX.py"
           (docopt_result PyNone (PyStr "pkg.tar.gz") (PyBool false) (PyStr "json"))
           [] ReferenceDB.stored PyNone (PyStr "pkg.tar.gz") (PyBool false) "json");
    try reflexivity; try discriminate.
  apply docopt_result_has_field_options.
Defined.

Lemma main_no_scan_unbound_witness :
  ReferenceDB.run "DoSPDX.py"
    (docopt_result PyNone (PyStr "pkg.tar.gz") (PyBool true) (PyStr "tag"))
    ([], ReferenceDB.stored)
  = (Raise (UnboundLocalError "document"), ([], ReferenceDB.stored)).
Proof.
  apply (main_no_scan_unbound string (list (string * string)) ReferenceDB.fetch
           ReferenceDB.scan ReferenceDB.render "DoSPDX.py"
           (docopt_result PyNone (PyStr "pkg.tar.gz") (PyBool true) (PyStr "tag"))
           [] ReferenceDB.stored (PyStr "pkg.tar.gz") (PyBool true) (PyStr "tag"));
    try reflexivity.
  - apply docopt_result_has_field_options.
  - simpl. tauto.
Defined.

Lemma main_doc_id_witness :
  ReferenceDB.run "DoSPDX.py"
    (docopt_result (PyStr "7") (PyStr "pkg.tar.gz") (PyBool false) (PyStr "rdf"))
    ([], ReferenceDB.stored)
  = (Ok tt, (["templates/2.0.rdf: document seven"], ReferenceDB.stored)).
Proof.
  apply (main_doc_id string (list (string * string)) ReferenceDB.fetch
           ReferenceDB.scan ReferenceDB.render "DoSPDX.py"
           (docopt_result (PyStr "7") (PyStr "pkg.tar.gz") (PyBool false) (PyStr "rdf"))
           [] ReferenceDB.stored "7" "rdf" "templates/2.0.rdf"
           (PyStr "pkg.tar.gz") (PyBool false));
    try reflexivity.
  - apply docopt_result_has_field_options.
  - simpl. tauto.
Defined.

Lemma main_scan_witness :
  ReferenceDB.run "DoSPDX.py"
    (docopt_result PyNone (PyStr "pkg.tar.gz") (PyBool false) (PyStr "tag"))
    ([], ReferenceDB.stored)
  = (Ok tt,
     (["templates/2.0.tag: document of pkg.tar.gz"],
      [("new", "document of pkg.tar.gz"); ("7", "document seven")])).
Proof.
  apply (main_scan string (list (string * string)) ReferenceDB.fetch
           ReferenceDB.scan ReferenceDB.render "DoSPDX.py"
           (docopt_result PyNone (PyStr "pkg.tar.gz") (PyBool false) (PyStr "tag"))
           [] ReferenceDB.stored (PyStr "pkg.tar.gz") (PyBool false) (PyStr "tag"));
    try reflexivity.
  - apply docopt_result_has_field_options.
  - simpl. tauto.
Defined.
